(** * PI-CAI inference wrapper: a shallow embedding of [backend/inference.py]

    The development models the functions of [backend/inference.py],
    [check_docker_available], [run_picai_inference] and
    [load_mri_volume], as programs of a small exception-and-state monad
    over an explicit world, then the handler [predict] of
    [backend/main.py] and the two plotting functions of
    [frontend/app.py]:

    - the file system is a tree of directories whose entries keep the
      order in which a directory scan yields them;
    - external programs ([docker --version], [docker run ...]) are an
      oracle of the environment, and every spawn and kill is logged;
    - a volume is its flattened array of voxels, each voxel the exact
      rational that the stored number denotes; maxima and comparisons with
      0.5 are exact on them, whereas the floating-point mean, whose
      rounding depends on the type of the array and on the order in which
      NumPy adds, is an oracle of the environment;
    - calls to [logger] have no effect on results and are left out. *)

From Stdlib Require Import ZArith QArith Qminmax List String Ascii Bool Lia.
From Stdlib Require PrimFloat FloatOps SpecFloat Uint63.
From stdpp Require Import gmap strings.
Import ListNotations.

Local Open Scope string_scope.
Local Open Scope Z_scope.

(** ** Python exceptions *)

Module Py.

(** The exception classes that the modelled code can meet. *)
Inductive exn_class :=
  | CalledProcessError
  | TimeoutExpired
  | FileNotFoundError
  | FileExistsError
  | NotADirectoryError
  | PermissionError
  | OSError
  | KeyError
  | ValueError
  | RuntimeError
  | Exception.

Definition exn_class_eqb (c d : exn_class) : bool :=
  match c, d with
  | CalledProcessError, CalledProcessError
  | TimeoutExpired, TimeoutExpired
  | FileNotFoundError, FileNotFoundError
  | FileExistsError, FileExistsError
  | NotADirectoryError, NotADirectoryError
  | PermissionError, PermissionError
  | OSError, OSError
  | KeyError, KeyError
  | ValueError, ValueError
  | RuntimeError, RuntimeError
  | Exception, Exception => true
  | _, _ => false
  end.

(** The direct base class in the hierarchy of the Python standard library
    ([subprocess.SubprocessError] is folded into [Exception], [LookupError]
    likewise). *)
Definition base (c : exn_class) : option exn_class :=
  match c with
  | CalledProcessError | TimeoutExpired => Some Exception
  | FileNotFoundError | FileExistsError | NotADirectoryError
  | PermissionError => Some OSError
  | OSError | KeyError | ValueError | RuntimeError => Some Exception
  | Exception => None
  end.

(** [issubclass c d]: the hierarchy above has depth two. *)
Definition issubclass (c d : exn_class) : bool :=
  exn_class_eqb c d
  || match base c with
     | Some b =>
         exn_class_eqb b d
         || match base b with
            | Some b' => exn_class_eqb b' d
            | None => false
            end
     | None => false
     end.

(** A raised exception: its class and the text that [str(e)] gives. *)
Record exn := Exn { exn_cls : exn_class; exn_str : string }.

Definition isinstance (e : exn) (classes : list exn_class) : bool :=
  existsb (issubclass (exn_cls e)) classes.

End Py.

Export Py.

(** ** The file system *)

(** A stored image is reduced to the flattened voxel array that
    [sitk.GetArrayFromImage] yields; any other file is [Garbage]. *)
Inductive content :=
  | Volume (voxels : list Q)
  | Garbage.

#[warnings="-register-all"]
Inductive node :=
  | File (c : content)
  | Dir (entries : list (string * node)).

(** A path is the list of its components below the root. *)
Definition path := list string.

(** [Path / name] *)
Definition path_div (p : path) (name : string) : path := (p ++ [name])%list.

(** [str(path)] of an absolute POSIX path. *)
Definition path_str (p : path) : string :=
  match p with
  | [] => "/"
  | _ => fold_right (fun c acc => "/" ++ c ++ acc) "" p
  end.

(** [path.parent] *)
Definition path_parent (p : path) : path := removelast p.

Fixpoint entry_get (x : string) (es : list (string * node)) : option node :=
  match es with
  | [] => None
  | (y, n) :: es' => if String.eqb x y then Some n else entry_get x es'
  end.

(** Replaces the entry named [x] where it stands; a new entry goes last. *)
Fixpoint entry_set (x : string) (n : node) (es : list (string * node))
  : list (string * node) :=
  match es with
  | [] => [(x, n)]
  | (y, m) :: es' =>
      if String.eqb x y then (y, n) :: es' else (y, m) :: entry_set x n es'
  end.

Fixpoint fs_lookup (p : path) (n : node) : option node :=
  match p with
  | [] => Some n
  | x :: p' =>
      match n with
      | Dir es =>
          match entry_get x es with
          | Some c => fs_lookup p' c
          | None => None
          end
      | File _ => None
      end
  end.

(** Writing a regular file: the parent must be a directory and the target
    must not be one. *)
Fixpoint fs_write (p : path) (c : content) (n : node) : option node :=
  match p with
  | [] => None
  | x :: p' =>
      match n with
      | File _ => None
      | Dir es =>
          match p' with
          | [] =>
              match entry_get x es with
              | Some (Dir _) => None
              | _ => Some (Dir (entry_set x (File c) es))
              end
          | _ :: _ =>
              match entry_get x es with
              | Some d =>
                  match fs_write p' c d with
                  | Some d' => Some (Dir (entry_set x d' es))
                  | None => None
                  end
              | None => None
              end
          end
      end
  end.

(** [Path.mkdir(parents=True, exist_ok=True)]: fails only when a component
    of the path exists and is not a directory. *)
Fixpoint fs_mkdir_p (p : path) (n : node) : option node :=
  match n with
  | File _ => None
  | Dir es =>
      match p with
      | [] => Some n
      | x :: p' =>
          let child := match entry_get x es with
                       | Some d => d
                       | None => Dir []
                       end in
          match fs_mkdir_p p' child with
          | Some d' => Some (Dir (entry_set x d' es))
          | None => None
          end
      end
  end.

(** The names that a scan of the directory at [p] yields, in scan order;
    nothing when [p] is not a directory. *)
Definition fs_scandir (p : path) (n : node) : list string :=
  match fs_lookup p n with
  | Some (Dir es) => map fst es
  | _ => []
  end.

(** ** Python floats *)

(** A Python float: the exact rational it denotes, not-a-number, or an
    infinity. *)
Inductive pyfloat :=
  | Finite (q : Q)
  | NaN
  | PosInf
  | NegInf.

(** ** The world and the monad of effects *)

(** What the modelled code does to processes, in order. *)
Inductive event :=
  | Spawn (cmd : list string) (timeout : option Q)
  | Kill (cmd : list string).

(** How the operating system answers a spawn: the program cannot be
    started, or it runs for [duration] seconds and exits.  Processes that
    never exit are outside the model. *)
Inductive proc_behaviour :=
  | SpawnFails (e : exn)
  | Runs (duration : Q) (returncode : Z) (stdout stderr : string).

(** The environment: the answer to every command line, together with the
    file system the program leaves behind, the process environment
    variables, and the value that NumPy's floating-point mean returns for
    a non-empty array: the exact mean up to rounding errors that depend
    on the type of the array and on the order of the additions. *)
Record Env := {
  os_exec : list string -> node -> proc_behaviour * node;
  environ : gmap string string;
  float_mean : list Q -> pyfloat
}.

Record World := { fs : node; events : list event }.

Inductive outcome (A : Type) :=
  | Ok (a : A)
  | Raise (e : exn).
Arguments Ok {A} a.
Arguments Raise {A} e.

Definition M (A : Type) : Type := World -> outcome A * World.

Definition ret {A} (a : A) : M A := fun w => (Ok a, w).

Definition raise {A} (c : exn_class) (msg : string) : M A :=
  fun w => (Raise (Exn c msg), w).

Definition reraise {A} (e : exn) : M A := fun w => (Raise e, w).

Definition bind {A B} (m : M A) (k : A -> M B) : M B :=
  fun w =>
    match m w with
    | (Ok a, w') => k a w'
    | (Raise e, w') => (Raise e, w')
    end.

Declare Scope py_scope.
Delimit Scope py_scope with py.
Notation "x <- m ;; k" := (bind m (fun x => k))
  (at level 100, m at next level, right associativity) : py_scope.
Notation "m ;; k" := (bind m (fun _ => k))
  (at level 100, right associativity) : py_scope.

(** [try: body / except C1 as e: h1 / except C2 as e: h2 ...]: the first
    clause whose class list matches handles the exception. *)
Fixpoint find_handler {A} (e : exn)
  (clauses : list (list exn_class * (exn -> M A))) : option (M A) :=
  match clauses with
  | [] => None
  | (classes, h) :: rest =>
      if isinstance e classes then Some (h e) else find_handler e rest
  end.

Definition try_except {A} (body : M A)
  (clauses : list (list exn_class * (exn -> M A))) : M A :=
  fun w =>
    match body w with
    | (Ok a, w') => (Ok a, w')
    | (Raise e, w') =>
        match find_handler e clauses with
        | Some h => h w'
        | None => (Raise e, w')
        end
    end.

(** [for x in xs: body x] *)
Fixpoint for_each {A} (xs : list A) (body : A -> M unit) : M unit :=
  match xs with
  | [] => ret tt
  | x :: xs' => bind (body x) (fun _ => for_each xs' body)
  end.

Definition log_event (ev : event) : M unit :=
  fun w => (Ok tt, {| fs := fs w; events := events w ++ [ev] |}).

Definition set_fs (n : node) : M unit :=
  fun w => (Ok tt, {| fs := n; events := events w |}).

Definition get_fs : M node := fun w => (Ok (fs w), w).

(** ** [subprocess.run] *)

Record CompletedProcess := {
  returncode : Z;
  stdout : string;
  stderr : string
}.

(** [subprocess.run(cmd, capture_output=True, check=check, timeout=timeout)].
    A program that cannot be started raises the error of the operating
    system.  When the timeout expires the child is killed and waited for
    and [TimeoutExpired] is raised; with [check], a non-zero exit status
    raises [CalledProcessError]. *)
Definition subprocess_run (env : Env) (cmd : list string) (check : bool)
  (timeout : option Q) : M CompletedProcess :=
  (log_event (Spawn cmd timeout) ;;
   root <- get_fs ;;
   match os_exec env cmd root with
   | (SpawnFails e, _) => reraise e
   | (Runs duration rc out err, root') =>
       set_fs root' ;;
       match timeout with
       | Some t =>
           if Qle_bool duration t then ret tt
           else (log_event (Kill cmd) ;;
                 raise TimeoutExpired "Command timed out")
       | None => ret tt
       end ;;
       if check && negb (rc =? 0)
       then raise CalledProcessError "Command returned non-zero exit status"
       else ret {| returncode := rc; stdout := out; stderr := err |}
   end)%py.

(** ** SimpleITK *)

(** [sitk.ReadImage(path)]: SimpleITK reports every failure as a
    [RuntimeError]. *)
Definition ReadImage (p : path) : M (list Q) :=
  (root <- get_fs ;;
   match fs_lookup p root with
   | Some (File (Volume v)) => ret v
   | _ => raise RuntimeError "Exception thrown in SimpleITK ImageFileReader"
   end)%py.

(** [sitk.WriteImage(img, path)] *)
Definition WriteImage (img : list Q) (p : path) : M unit :=
  (root <- get_fs ;;
   match fs_write p (Volume img) root with
   | Some root' => set_fs root'
   | None => raise RuntimeError "Exception thrown in SimpleITK ImageFileWriter"
   end)%py.

(** ** [pathlib] and [os] *)

Definition mkdir_parents_exist_ok (p : path) : M unit :=
  (root <- get_fs ;;
   match fs_mkdir_p p root with
   | Some root' => set_fs root'
   | None => raise FileExistsError "[Errno 17] File exists"
   end)%py.

(** [os.chmod(path, 0o777)]: permission bits are not part of the file
    system model, what remains is that the path must exist. *)
Definition chmod_rwx_all (p : path) : M unit :=
  (root <- get_fs ;;
   match fs_lookup p root with
   | Some _ => ret tt
   | None => raise FileNotFoundError "[Errno 2] No such file or directory"
   end)%py.

(** Shell-style matching of one path component, as [Path.glob] does for a
    pattern without a separator: [*] stands for any run of characters,
    [?] for one character, every other character for itself (bracket
    expressions do not occur in the patterns of this program). *)
Fixpoint fnmatch (pat name : string) : bool :=
  match pat with
  | EmptyString =>
      match name with
      | EmptyString => true
      | String _ _ => false
      end
  | String c pat' =>
      if Ascii.eqb c "*" then
        (fix star (s : string) : bool :=
           fnmatch pat' s
           || match s with
              | EmptyString => false
              | String _ s' => star s'
              end) name
      else
        match name with
        | EmptyString => false
        | String d name' =>
            (Ascii.eqb c "?" || Ascii.eqb c d) && fnmatch pat' name'
        end
  end.

(** [list(dir.glob(pattern))] for a one-component pattern: the entries of
    [dir] itself that match, in scan order. *)
Definition glob (dir : path) (pattern : string) : M (list path) :=
  (root <- get_fs ;;
   ret (map (path_div dir)
          (List.filter (fnmatch pattern) (fs_scandir dir root))))%py.

(** ** NumPy reductions over the flattened array *)

Definition np_size (a : list Q) : Z := Z.of_nat (length a).

(** [np.mean]: of an empty array it is nan (with a warning, not an
    error); otherwise the floating-point mean of the environment. *)
Definition np_mean (env : Env) (a : list Q) : pyfloat :=
  match a with
  | [] => NaN
  | _ :: _ => float_mean env a
  end.

(** [np.max]: a running maximum; an empty array has none. *)
Definition np_max (a : list Q) : M Q :=
  match a with
  | [] =>
      raise ValueError
        "zero-size array to reduction operation maximum which has no identity"
  | x :: a' => ret (fold_left Qmax a' x)
  end.

(** [a > t], elementwise. *)
Definition np_greater (a : list Q) (t : Q) : list bool :=
  map (fun x => negb (Qle_bool x t)) a.

(** [np.sum] of a boolean array counts its true elements. *)
Definition np_sum_bool (m : list bool) : Z :=
  fold_left (fun acc (b : bool) => if b then acc + 1 else acc) m 0.

(** ** Python values of the returned dictionary *)

#[warnings="-register-all"]
Inductive pyval :=
  | PStr (s : string)
  | PFloat (x : pyfloat)
  | PInt (z : Z)
  | PDict (d : gmap string pyval).

(** [d[key]] *)
Definition getitem {A} (d : gmap string A) (key : string) : M A :=
  match d !! key with
  | Some a => ret a
  | None => raise KeyError key
  end.

(** * The program *)

Section Inference.

Context (env : Env).

(** [DOCKER_IMAGE = os.getenv("PICAI_DOCKER_IMAGE", "picai_nnunet_gc_algorithm:latest")] *)
Definition DOCKER_IMAGE : string :=
  default "picai_nnunet_gc_algorithm:latest"
    (environ env !! "PICAI_DOCKER_IMAGE").

Definition check_docker_available : M bool :=
  try_except
    (subprocess_run env ["docker"; "--version"] true None ;;
     ret true)%py
    [([CalledProcessError; FileNotFoundError], fun _ => ret false)].

(** Lines 56-68: the directory layout of the algorithm and its
    permissions. *)
Definition prepare_workspace (input_dir output_path : path) : M unit :=
  (mkdir_parents_exist_ok input_dir ;;
   mkdir_parents_exist_ok output_path ;;
   mkdir_parents_exist_ok
     (path_div (path_div output_path "images") "cspca-detection-map") ;;
   chmod_rwx_all output_path ;;
   chmod_rwx_all (path_div output_path "images"))%py.

(** Lines 70-85: the three inputs are read and written again under the
    names that the algorithm expects; [input_files] is returned for the
    later steps. *)
Definition stage_inputs (t2w_path adc_path hbv_path : path)
  (input_dir : path) : M (gmap string path) :=
  let case_id := "case_001" in
  let input_files : gmap string path :=
    {[ "t2w" := path_div input_dir (case_id ++ "_t2w.mha");
       "adc" := path_div input_dir (case_id ++ "_adc.mha");
       "hbv" := path_div input_dir (case_id ++ "_hbv.mha") ]} in
  (for_each [("t2w", t2w_path); ("adc", adc_path); ("hbv", hbv_path)]
     (fun '(modality, src_path) =>
        img <- ReadImage src_path ;;
        dst <- getitem input_files modality ;;
        WriteImage img dst) ;;
   ret input_files)%py.

(** Lines 87-118: the container is run once, under a timeout of 300
    seconds. *)
Definition run_container (input_dir output_path : path) : M unit :=
  try_except
    (let cmd :=
       [ "docker"; "run"; "--rm";
         "-v"; path_str (path_parent (path_parent input_dir)) ++ ":/input";
         "-v"; path_str output_path ++ ":/output";
         DOCKER_IMAGE ] in
     result <- subprocess_run env cmd false (Some 300%Q) ;;
     if negb (returncode result =? 0)
     then raise RuntimeError ("Docker inference failed: " ++ stderr result)
     else ret tt)%py
    [([TimeoutExpired], fun _ =>
        raise RuntimeError "Docker inference timed out after 5 minutes");
     ([Exception], fun e =>
        raise RuntimeError ("Error running Docker: " ++ exn_str e))].

(** Lines 120-126: the prediction is looked for in [output_path]. *)
Definition find_prediction (output_path : path) : M path :=
  (mha <- glob output_path "*.mha" ;;
   nii <- glob output_path "*.nii.gz" ;;
   let prediction_files := (mha ++ nii)%list in
   match prediction_files with
   | [] => raise RuntimeError "No prediction file found in output directory"
   | prediction_path :: _ => ret prediction_path
   end)%py.

(** Lines 133-139: the statistics of the prediction array. *)
Definition compute_statistics (pred_array : list Q) : M (gmap string pyval) :=
  (let mean_probability := np_mean env pred_array in
   max_probability <- np_max pred_array ;;
   let positive_voxels := np_sum_bool (np_greater pred_array (1 # 2)) in
   let total_voxels := np_size pred_array in
   ret ({[ "mean_probability" := PFloat mean_probability;
           "max_probability" := PFloat (Finite max_probability);
           "positive_voxels" := PInt positive_voxels;
           "total_voxels" := PInt total_voxels ]} : gmap string pyval))%py.

Definition run_picai_inference (t2w_path adc_path hbv_path : path)
  (output_dir : path) : M (gmap string pyval) :=
  (available <- check_docker_available ;;
   (if negb available
    then raise RuntimeError "Docker is not available. Please install Docker."
    else ret tt) ;;
   let input_dir := path_div (path_div output_dir "input") "images" in
   let output_path := path_div output_dir "output" in
   prepare_workspace input_dir output_path ;;
   input_files <- stage_inputs t2w_path adc_path hbv_path input_dir ;;
   run_container input_dir output_path ;;
   prediction_path <- find_prediction output_path ;;
   pred_array <- ReadImage prediction_path ;;
   stats <- compute_statistics pred_array ;;
   t2w <- getitem input_files "t2w" ;;
   adc <- getitem input_files "adc" ;;
   hbv <- getitem input_files "hbv" ;;
   ret ({[ "status" := PStr "success";
           "prediction_path" := PStr (path_str prediction_path);
           "t2w_path" := PStr (path_str t2w);
           "adc_path" := PStr (path_str adc);
           "hbv_path" := PStr (path_str hbv);
           "statistics" := PDict stats ]} : gmap string pyval))%py.

End Inference.

(** [load_mri_volume] (lines 159-162), and [load_volume] of the frontend
    (lines 22-24 of [frontend/app.py]), which has the same body: the
    voxel array of the image at [file_path]. *)
Definition load_mri_volume (file_path : path) : M (list Q) :=
  (img <- ReadImage file_path ;;
   ret img)%py.

(** * The API: [backend/main.py] *)

(** An uploaded file: the name the client gave and the bytes sent, the
    latter as the content they have once stored. *)
Record UploadFile := { filename : string; file : content }.

(** [JSONResponse(content=...)]; the status code defaults to 200. *)
Record JSONResponse := { status_code : Z; response_content : gmap string pyval }.

(** What the handler can raise: an exception of the interpreter, or
    FastAPI's [HTTPException], itself a subclass of [Exception]. *)
Inductive api_exn :=
  | PyExn (e : exn)
  | HTTPException (status : Z) (detail : string).

Inductive api_outcome (A : Type) :=
  | Returned (a : A)
  | Raised (e : api_exn).
Arguments Returned {A} a.
Arguments Raised {A} e.

Definition API (A : Type) : Type := World -> api_outcome A * World.

Definition api_ret {A} (a : A) : API A := fun w => (Returned a, w).

Definition api_raise {A} (e : api_exn) : API A := fun w => (Raised e, w).

Definition api_bind {A B} (m : API A) (k : A -> API B) : API B :=
  fun w =>
    match m w with
    | (Returned a, w') => k a w'
    | (Raised e, w') => (Raised e, w')
    end.

(** A computation of the inference module run from the handler. *)
Definition lift {A} (m : M A) : API A :=
  fun w =>
    match m w with
    | (Ok a, w') => (Returned a, w')
    | (Raise e, w') => (Raised (PyExn e), w')
    end.

Declare Scope api_scope.
Delimit Scope api_scope with api.
Notation "x <- m ;; k" := (api_bind m (fun x => k))
  (at level 100, m at next level, right associativity) : api_scope.
Notation "m ;; k" := (api_bind m (fun _ => k))
  (at level 100, right associativity) : api_scope.

(** [try: body / except Exception as e: handler e]: every modelled
    exception, [HTTPException] included, is an [Exception]. *)
Definition api_try_except_Exception {A} (body : API A)
  (handler : api_exn -> API A) : API A :=
  fun w =>
    match body w with
    | (Returned a, w') => (Returned a, w')
    | (Raised e, w') => handler e w'
    end.

Fixpoint api_for_each {A} (xs : list A) (body : A -> API unit) : API unit :=
  match xs with
  | [] => api_ret tt
  | x :: xs' => api_bind (body x) (fun _ => api_for_each xs' body)
  end.

(** [s.endswith(suffix)]: some tail of [s] is [suffix]. *)
Fixpoint endswith (s suffix : string) : bool :=
  String.eqb s suffix
  || match s with
     | EmptyString => false
     | String _ s' => endswith s' suffix
     end.

Section Api.

(** The environment of the inference module; [tempfile.mkdtemp], whose
    choice of a directory is left open; the storing of one upload
    (lines 81-83), [save_upload temp_path file], which returns
    [temp_path / file.filename] after the bytes have been written there:
    how [pathlib] parses the client's file name (separators, [.], [..],
    a leading [/]) and how the operating system resolves the result is
    left open; and the text that [str] gives for an [HTTPException],
    which the web framework defines. *)
Context (env : Env) (mkdtemp : M path)
        (save_upload : path -> UploadFile -> M path)
        (str_HTTPException : Z -> string -> string).

(** [str(e)] *)
Definition api_str (e : api_exn) : string :=
  match e with
  | PyExn e => exn_str e
  | HTTPException status detail => str_HTTPException status detail
  end.

Definition valid_extensions : list string := [".mha"; ".nii.gz"; ".nii"].

(** Lines 67-74: the check of the three file names. *)
Definition validate_extensions (t2w adc hbv : UploadFile) : API unit :=
  api_for_each [t2w; adc; hbv]
    (fun upload =>
       if negb (existsb (fun ext => endswith (filename upload) ext)
                  valid_extensions)
       then api_raise
              (HTTPException 400
                 ("Invalid file format for " ++ filename upload
                  ++ ". Use .mha or .nii.gz"))
       else api_ret tt).

(** Lines 76-85: the uploads are stored one after the other;
    [file_paths] grows by one key per turn. *)
Fixpoint save_uploads (temp_path : path) (files : list (string * UploadFile))
  (file_paths : gmap string path) : M (gmap string path) :=
  match files with
  | [] => ret file_paths
  | (key, upload) :: files' =>
      (file_path <- save_upload temp_path upload ;;
       save_uploads temp_path files' (<[key := file_path]> file_paths))%py
  end.

(** The handler of [POST /predict] (lines 55-105). *)
Definition predict (t2w adc hbv : UploadFile) : API JSONResponse :=
  api_try_except_Exception
    (temp_path <- lift mkdtemp ;;
     validate_extensions t2w adc hbv ;;
     file_paths <-
       lift (save_uploads temp_path
               [("t2w", t2w); ("adc", adc); ("hbv", hbv)] ∅) ;;
     t2w_path <- lift (getitem file_paths "t2w") ;;
     adc_path <- lift (getitem file_paths "adc") ;;
     hbv_path <- lift (getitem file_paths "hbv") ;;
     result <-
       lift (run_picai_inference env t2w_path adc_path hbv_path temp_path) ;;
     api_ret {| status_code := 200; response_content := result |})%api
    (fun e => api_raise (HTTPException 500 (api_str e))).

End Api.

(** * The viewer: [frontend/app.py] *)

Module App.

(** A loaded volume: its slices along the first axis, each slice
    flattened. *)
Definition volume := list (list Q).

(** What NumPy raises here. *)
Inductive error :=
  | IndexError (msg : string)
  | ValueError (msg : string).

(** A float of a NumPy array, with the values that a division by zero
    yields. *)
Inductive npfloat :=
  | Finite (q : Q)
  | NaN
  | PosInf
  | NegInf.

(** [go.Heatmap(z=..., colorscale=..., showscale=..., opacity=..., name=...)] *)
Record Heatmap := {
  z : list npfloat;
  colorscale : string;
  showscale : bool;
  opacity : option Q;
  colorbar_title : option string;
  name : option string
}.

(** [go.Figure] with the layout that [update_layout] sets. *)
Record Figure := {
  data : list Heatmap;
  title : string;
  width : Z;
  height : Z;
  xaxis_showticklabels : bool;
  yaxis_showticklabels : bool
}.

(** [volume.shape[0]] *)
Definition shape0 (v : volume) : Z := Z.of_nat (length v).

(** [volume[i, :, :]]: a negative index counts from the end, an index
    out of range raises. *)
Definition index0 (v : volume) (i : Z) : error + list Q :=
  let n := shape0 v in
  let j := if i <? 0 then i + n else i in
  if (0 <=? j) && (j <? n)
  then match nth_error v (Z.to_nat j) with
       | Some s => inr s
       | None => inl (IndexError "index out of bounds for axis 0")
       end
  else inl (IndexError "index out of bounds for axis 0").

(** [a.min()] and [a.max()] *)
Definition amin (a : list Q) : error + Q :=
  match a with
  | [] => inl (ValueError
                 "zero-size array to reduction operation minimum which has no identity")
  | x :: a' => inr (fold_left Qmin a' x)
  end.

Definition amax (a : list Q) : error + Q :=
  match a with
  | [] => inl (ValueError
                 "zero-size array to reduction operation maximum which has no identity")
  | x :: a' => inr (fold_left Qmax a' x)
  end.

(** The arithmetic of an array, which its element type decides:
    subtraction, which wraps around in the integer types and rounds in
    the floating-point ones; true division, which rounds and gives nan or
    an infinity for a zero divisor, with a warning and no exception; and
    the comparison [x > t] of an element with a Python float, made in
    the type that NumPy promotes the two to. *)
Record Arithmetic := {
  subtract : Q -> Q -> Q;
  true_divide : Q -> Q -> npfloat;
  greater : Q -> Q -> bool
}.

(** [np.where(a > t, a, np.nan)] *)
Definition where_greater (ar : Arithmetic) (a : list Q) (t : Q)
  : list npfloat :=
  map (fun v => if greater ar v t then Finite v else NaN) a.

(** [create_slice_viewer] (lines 34-55) *)
Definition create_slice_viewer (vol : volume) (title : string)
  (slice_idx : option Z) : error + Figure :=
  let slice_idx := match slice_idx with
                   | None => shape0 vol / 2
                   | Some i => i
                   end in
  match index0 vol slice_idx with
  | inl e => inl e
  | inr slice_data =>
      inr {| data := [ {| z := map Finite slice_data;
                          colorscale := "Gray";
                          showscale := false;
                          opacity := None;
                          colorbar_title := None;
                          name := None |} ];
             title := title;
             width := 400;
             height := 400;
             xaxis_showticklabels := false;
             yaxis_showticklabels := false |}
  end.

(** [create_overlay_plot] (lines 65-107); [t2w_type] and [pred_type]
    are the arithmetics of the two arrays. *)
Definition create_overlay_plot (t2w_type pred_type : Arithmetic)
  (t2w prediction : volume) (slice_idx : option Z) : error + Figure :=
  let slice_idx := match slice_idx with
                   | None => shape0 t2w / 2
                   | Some i => i
                   end in
  match index0 t2w slice_idx with
  | inl e => inl e
  | inr t2w_slice =>
      match index0 prediction slice_idx with
      | inl e => inl e
      | inr pred_slice =>
          match amin t2w_slice with
          | inl e => inl e
          | inr lo =>
              match amax t2w_slice with
              | inl e => inl e
              | inr hi =>
                  let t2w_normalized :=
                    map (fun x => true_divide t2w_type
                                    (subtract t2w_type x lo)
                                    (subtract t2w_type hi lo))
                      t2w_slice in
                  let threshold := (3 # 10)%Q in
                  let pred_mask :=
                    where_greater pred_type pred_slice threshold in
                  inr {| data :=
                           [ {| z := t2w_normalized;
                                colorscale := "Gray";
                                showscale := false;
                                opacity := None;
                                colorbar_title := None;
                                name := Some "T2W" |};
                             {| z := pred_mask;
                                colorscale := "Reds";
                                showscale := true;
                                opacity := Some (1 # 2)%Q;
                                colorbar_title := Some "Cancer<br>Probability";
                                name := Some "Prediction" |} ];
                         title := "Cancer Detection Overlay";
                         width := 600;
                         height := 600;
                         xaxis_showticklabels := false;
                         yaxis_showticklabels := false |}
              end
          end
      end
  end.

End App.

(** * Vocabulary of the properties *)

(** IEEE 754 binary64 arithmetic, through the primitive floats of the
    kernel: the arithmetic of Python floats and of [float64] arrays. *)
Module Binary64.

(** The float of an integer; exact below 2^53 in absolute value (the
    argument is taken modulo 2^63). *)
Definition of_Z (z : Z) : PrimFloat.float :=
  if z <? 0
  then PrimFloat.opp (PrimFloat.of_uint63 (Uint63.of_Z (- z)))
  else PrimFloat.of_uint63 (Uint63.of_Z z).

(** The correctly rounded quotient of numerator and denominator: the
    float itself for a rational that is a binary64 float with numerator
    below 2^53 and denominator below 2^63. *)
Definition of_Q (q : Q) : PrimFloat.float :=
  PrimFloat.div (of_Z (Qnum q)) (of_Z (Z.pos (Qden q))).

(** The value that a float denotes. *)
Definition to_pyfloat (f : PrimFloat.float) : pyfloat :=
  match FloatOps.Prim2SF f with
  | SpecFloat.S754_zero _ => Finite 0
  | SpecFloat.S754_finite s m e =>
      let n := if s then Z.neg m else Z.pos m in
      Finite (if e <? 0
              then Qmake n (Pos.shiftl 1 (Z.to_N (- e)))
              else inject_Z (n * 2 ^ e))
  | SpecFloat.S754_infinity s => if s then NegInf else PosInf
  | SpecFloat.S754_nan => NaN
  end.

(** The mean of a [float64] array as NumPy computes it below eight
    elements: the elements are added one after the other, starting from
    0.0, and the sum is divided by their number. *)
Definition mean (a : list Q) : pyfloat :=
  to_pyfloat
    (PrimFloat.div
       (fold_left PrimFloat.add (map of_Q a) PrimFloat.zero)
       (of_Z (Z.of_nat (length a)))).


End Binary64.

(** An environment without [docker] whose arrays are [float64]. *)
Definition env_binary64 : Env :=
  {| os_exec := fun _ root =>
       (SpawnFails
          (Exn FileNotFoundError
             "[Errno 2] No such file or directory: 'docker'"),
        root);
     environ := ∅;
     float_mean := Binary64.mean |}.

(** The file that the manifest names for a modality is a stored volume. *)
Definition staged (input_dir : path) (manifest : gmap string path)
  (root : node) (modality : string) : Prop :=
  manifest !! modality
    = Some (path_div input_dir ("case_001_" ++ modality ++ ".mha")) /\
  exists v,
    fs_lookup (path_div input_dir ("case_001_" ++ modality ++ ".mha")) root
      = Some (File (Volume v)).

(** An environment in which the [docker] executable is found but may not
    be executed. *)
Definition env_permission_denied : Env :=
  {| os_exec := fun _ root =>
       (SpawnFails
          (Exn PermissionError "[Errno 13] Permission denied: 'docker'"),
        root);
     environ := ∅;
     float_mean := Binary64.mean |}.

(** No file, no process so far. *)
Definition empty_world : World := {| fs := Dir []; events := [] |}.

(** The command line of lines 92-98. *)
Definition docker_run_cmd (env : Env) (input_dir output_path : path)
  : list string :=
  [ "docker"; "run"; "--rm";
    "-v"; path_str (path_parent (path_parent input_dir)) ++ ":/input";
    "-v"; path_str output_path ++ ":/output";
    DOCKER_IMAGE env ].

(** The number of processes spawned in a log. *)
Definition spawn_count (evs : list event) : nat :=
  length (List.filter
            (fun ev => match ev with Spawn _ _ => true | Kill _ => false end)
            evs).


(** The number of voxels whose value is strictly greater than [t]. *)
Definition count_above (t : Q) (a : list Q) : nat :=
  length (List.filter (fun v => if Qlt_le_dec t v then true else false) a).

(** [s.endswith(suffix)] *)
Definition ends_with (s suffix : string) : Prop :=
  exists pre, s = pre ++ suffix.

(** A pattern without wildcard characters. *)
Fixpoint literal (pat : string) : bool :=
  match pat with
  | EmptyString => true
  | String c pat' =>
      negb (Ascii.eqb c "*") && negb (Ascii.eqb c "?") && literal pat'
  end.

(** [path.name] *)
Definition path_name (p : path) : string := List.last p "".

(** The list [prediction_files] of line 121 as a function of the file
    system. *)
Definition prediction_files (output_path : path) (root : node) : list path :=
  (map (path_div output_path)
     (List.filter (fnmatch "*.mha") (fs_scandir output_path root))
   ++ map (path_div output_path)
        (List.filter (fnmatch "*.nii.gz") (fs_scandir output_path root)))%list.

(** Worlds and environments on which the program is run below. *)
Module Runs.

Definition detection_map : list Q := [0; 1 # 10; 9 # 10; 6 # 10]%Q.

(** Three uploaded volumes and an empty working directory. *)
Definition uploads : node :=
  Dir [("data",
        Dir [("t2w.mha", File (Volume [1; 2; 3; 4]%Q));
             ("adc.mha", File (Volume [5; 6; 7; 8]%Q));
             ("hbv.nii.gz", File (Volume [0; 0; 1; 1]%Q))]);
       ("work", Dir [])].

Definition start : World := {| fs := uploads; events := [] |}.

Definition is_version_query (cmd : list string) : bool :=
  match cmd with
  | [_; flag] => String.eqb flag "--version"
  | _ => false
  end.

(** An environment with a working [docker] whose container runs for
    [duration] seconds, exits with [rc] and, before that, writes the
    detection map to [target]. *)
Definition docker_env (duration : Q) (rc : Z) (err : string) (target : path)
  : Env :=
  {| os_exec := fun cmd root =>
       if is_version_query cmd
       then (Runs 0 0 "Docker version 24.0.7" "", root)
       else (Runs duration rc "" err,
             match fs_write target (Volume detection_map) root with
             | Some root' => root'
             | None => root
             end);
     environ := ∅;
     float_mean := Binary64.mean |}.

Definition run (env : Env) : outcome (gmap string pyval) * World :=
  run_picai_inference env
    ["data"; "t2w.mha"] ["data"; "adc.mha"] ["data"; "hbv.nii.gz"]
    ["work"] start.

(** Where the algorithm writes its detection map. *)
Definition algorithm_output : path :=
  ["work"; "output"; "images"; "cspca-detection-map";
   "cspca_detection_map.mha"].

End Runs.

(** An output directory that lists a [.nii.gz] entry before an [.mha]
    entry. *)
Definition both_formats : World :=
  {| fs := Dir [("out",
                 Dir [("b.nii.gz", File (Volume [0%Q]));
                      ("a.mha", File (Volume [1%Q]))])];
     events := [] |}.

(** [path.is_dir()] *)
Definition is_dir (p : path) (root : node) : Prop :=
  exists es, fs_lookup p root = Some (Dir es).

(** Two nodes of the same kind: the same file, or two directories. *)
Definition same_kind (a b : node) : Prop :=
  match a, b with
  | File c, File c' => c = c'
  | Dir _, Dir _ => True
  | _, _ => False
  end.

(** A computation that spawns and kills nothing. *)
Definition quiet {A} (m : M A) : Prop :=
  forall w, events (snd (m w)) = events w.

(** The check that [predict] applies to a file name. *)
Definition valid_filename (name : string) : bool :=
  existsb (fun ext => endswith name ext) valid_extensions.

(** An environment without the [docker] executable. *)
Definition env_no_docker : Env :=
  {| os_exec := fun _ root =>
       (SpawnFails
          (Exn FileNotFoundError
             "[Errno 2] No such file or directory: 'docker'"),
        root);
     environ := ∅;
     float_mean := Binary64.mean |}.

(** A directory that lists a [.nii.gz] entry, a directory and two
    [.mha] entries. *)
Definition several_candidates : World :=
  {| fs := Dir [("out",
                 Dir [("b.nii.gz", File (Volume [0%Q]));
                      ("images", Dir []);
                      ("z.mha", File (Volume [1%Q]));
                      ("a.mha", File (Volume [2%Q]))])];
     events := [] |}.

(** Storing an upload whose file name is a single path component. *)
Definition save_plain_name (temp_path : path) (upload : UploadFile) : M path :=
  (root <- get_fs ;;
   match fs_write (path_div temp_path (filename upload)) (file upload) root with
   | Some root' =>
       set_fs root' ;;
       ret (path_div temp_path (filename upload))
   | None => raise OSError "[Errno] cannot open file for writing"
   end)%py.

(** A [mkdtemp] that makes [/tmp/tmpk3v9] and three uploads, the first
    with a name that the handler refuses. *)
Definition mkdtemp_fixed : M path :=
  (mkdir_parents_exist_ok ["tmp"; "tmpk3v9"] ;;
   ret ["tmp"; "tmpk3v9"])%py.

Definition upload_dicom : UploadFile :=
  {| filename := "t2w.dcm"; file := Garbage |}.

Definition upload_adc : UploadFile :=
  {| filename := "adc.mha"; file := Volume [5; 6; 7; 8]%Q |}.

Definition upload_hbv : UploadFile :=
  {| filename := "hbv.nii.gz"; file := Volume [0; 0; 1; 1]%Q |}.

(** * Properties *)

(** ** Directory entries and the file system *)

Section FileSystemFacts.

Implicit Types (x y : string) (n m : node) (es : list (string * node)).
Implicit Types (p q : path) (c : content).

Lemma entry_get_set_same x n es : entry_get x (entry_set x n es) = Some n.
Proof.
  induction es as [|[y m] es IH]; simpl.
  - now rewrite String.eqb_refl.
  - destruct (String.eqb x y) eqn:E; simpl; rewrite E; auto.
Qed.

Lemma entry_get_set_other x y n es :
  x <> y -> entry_get y (entry_set x n es) = entry_get y es.
Proof.
  intros Hxy. induction es as [|[z m] es IH]; simpl.
  - destruct (String.eqb_spec y x); congruence.
  - destruct (String.eqb_spec x z) as [->|Hxz]; simpl.
    + destruct (String.eqb_spec y z); congruence.
    + now rewrite IH.
Qed.

Lemma fs_lookup_file_inv p c c' :
  fs_lookup p (File c) = Some (File c') -> p = [].
Proof. destruct p; simpl; congruence. Qed.

(** A file that has just been written is there. *)
Lemma fs_write_lookup_same p c n n' :
  fs_write p c n = Some n' -> fs_lookup p n' = Some (File c).
Proof.
  revert n n'. induction p as [|x p IH]; intros n n' H; simpl in H.
  - discriminate.
  - destruct n as [|es]; [discriminate|].
    destruct p as [|z p'].
    + destruct (entry_get x es) as [[|]|]; inversion H; subst; simpl;
        now rewrite entry_get_set_same.
    + destruct (entry_get x es) as [d|] eqn:Ed; [|discriminate].
      destruct (fs_write (z :: p') c d) as [d'|] eqn:Ew; [|discriminate].
      inversion H; subst. cbn [fs_lookup].
      rewrite entry_get_set_same. now apply IH with d.
Qed.

(** Writing a file leaves every other file as it was. *)
Lemma fs_write_lookup_other p q c c0 n n' :
  fs_write q c n = Some n' ->
  fs_lookup p n = Some (File c0) ->
  p <> q ->
  fs_lookup p n' = Some (File c0).
Proof.
  revert p n n'. induction q as [|x q IH]; intros p n n' Hw Hl Hne;
    simpl in Hw; [discriminate|].
  destruct n as [|es]; [discriminate|].
  destruct p as [|y p]; [simpl in Hl; discriminate|].
  cbn [fs_lookup] in Hl.
  destruct (entry_get y es) as [dy|] eqn:Ey; [|discriminate].
  destruct q as [|z q'].
  - assert (Hn' : n' = Dir (entry_set x (File c) es))
      by (destruct (entry_get x es) as [[|]|]; congruence).
    subst n'. cbn [fs_lookup].
    destruct (String.eqb_spec x y) as [->|Hxy].
    + rewrite Ey in Hw. destruct dy as [cy|]; [|discriminate].
      apply fs_lookup_file_inv in Hl. subst p. congruence.
    + rewrite entry_get_set_other by assumption. now rewrite Ey.
  - destruct (entry_get x es) as [d|] eqn:Ed; [|discriminate].
    destruct (fs_write (z :: q') c d) as [d'|] eqn:Ew; [|discriminate].
    inversion Hw; subst n'. cbn [fs_lookup].
    destruct (String.eqb_spec x y) as [->|Hxy].
    + rewrite entry_get_set_same.
      assert (dy = d) by congruence. subst dy.
      apply IH with d; [assumption|assumption|congruence].
    + rewrite entry_get_set_other by assumption. now rewrite Ey.
Qed.

Lemma path_div_inj p x y : path_div p x = path_div p y -> x = y.
Proof.
  unfold path_div. intros H. apply app_inv_head in H. congruence.
Qed.

End FileSystemFacts.

(** ** The monad *)

Lemma bind_Ok_inv {A B} (m : M A) (k : A -> M B) w b w' :
  bind m k w = (Ok b, w') ->
  exists a w1, m w = (Ok a, w1) /\ k a w1 = (Ok b, w').
Proof.
  unfold bind. destruct (m w) as [[a|e] w1]; intros H.
  - eauto.
  - discriminate.
Qed.

Lemma bind_Ok {A B} (m : M A) (k : A -> M B) w a w1 :
  m w = (Ok a, w1) -> bind m k w = k a w1.
Proof. unfold bind. now intros ->. Qed.

Lemma bind_Raise {A B} (m : M A) (k : A -> M B) w e w1 :
  m w = (Raise e, w1) -> bind m k w = (Raise e, w1).
Proof. unfold bind. now intros ->. Qed.

(** Inversion of one successful [bind]. *)
Ltac bind_inv H :=
  let a := fresh "a" in
  let w := fresh "w" in
  let E := fresh "E" in
  apply bind_Ok_inv in H as (a & w & E & H).

(** ** Staging of the inputs *)

(** One turn of the staging loop: it raises, or it writes the image read
    from [src_path] to the destination that [input_files] gives. *)
Lemma stage_one_cases (input_files : gmap string path) modality src_path dst w :
  input_files !! modality = Some dst ->
  (exists e w',
      (img <- ReadImage src_path ;;
       dst' <- getitem input_files modality ;;
       WriteImage img dst')%py w = (Raise e, w'))
  \/
  (exists v root',
      fs_write dst (Volume v) (fs w) = Some root' /\
      (img <- ReadImage src_path ;;
       dst' <- getitem input_files modality ;;
       WriteImage img dst')%py w
      = (Ok tt, {| fs := root'; events := events w |})).
Proof.
  intros Hdst. unfold ReadImage, WriteImage, getitem, bind, get_fs, set_fs,
    ret, raise. rewrite Hdst.
  destruct (fs_lookup src_path (fs w)) as [[[v|]|]|]; try (left; eauto; fail).
  destruct (fs_write dst (Volume v) (fs w)) as [root'|] eqn:Ew.
  - right. exists v, root'. auto.
  - left. eauto.
Qed.

(** C3: a call of the staging step either raises, and then yields no
    manifest at all, or returns the manifest of exactly the three
    modalities t2w, adc and hbv, each mapped to
    [input_dir/case_001_<modality>.mha], and each of these three files is
    then a stored volume of the file system. *)
Theorem stage_inputs_all_or_nothing
  (t2w_path adc_path hbv_path input_dir : path) (w : World) :
  (exists e w',
      stage_inputs t2w_path adc_path hbv_path input_dir w = (Raise e, w'))
  \/
  (exists manifest w',
      stage_inputs t2w_path adc_path hbv_path input_dir w = (Ok manifest, w')
      /\ dom manifest = ({[ "t2w"; "adc"; "hbv" ]} : gset string)
      /\ staged input_dir manifest (fs w') "t2w"
      /\ staged input_dir manifest (fs w') "adc"
      /\ staged input_dir manifest (fs w') "hbv").
Proof.
  unfold stage_inputs. cbn [for_each].
  set (input_files :=
         ({[ "t2w" := path_div input_dir ("case_001" ++ "_t2w.mha");
             "adc" := path_div input_dir ("case_001" ++ "_adc.mha");
             "hbv" := path_div input_dir ("case_001" ++ "_hbv.mha") ]}
          : gmap string path)).
  assert (Ht : input_files !! "t2w"
               = Some (path_div input_dir "case_001_t2w.mha")) by reflexivity.
  assert (Ha : input_files !! "adc"
               = Some (path_div input_dir "case_001_adc.mha")) by reflexivity.
  assert (Hh : input_files !! "hbv"
               = Some (path_div input_dir "case_001_hbv.mha")) by reflexivity.
  destruct (stage_one_cases input_files "t2w" t2w_path _ w Ht)
    as [(e & w' & E1)|(v1 & r1 & W1 & E1)].
  { left. exists e, w'. erewrite bind_Raise; [reflexivity|].
    erewrite bind_Raise; [reflexivity|exact E1]. }
  set (w1 := {| fs := r1; events := events w |}) in *.
  destruct (stage_one_cases input_files "adc" adc_path _ w1 Ha)
    as [(e & w' & E2)|(v2 & r2 & W2 & E2)].
  { left. exists e, w'. erewrite bind_Raise; [reflexivity|].
    erewrite bind_Ok by exact E1.
    erewrite bind_Raise; [reflexivity|exact E2]. }
  set (w2 := {| fs := r2; events := events w1 |}) in *.
  destruct (stage_one_cases input_files "hbv" hbv_path _ w2 Hh)
    as [(e & w' & E3)|(v3 & r3 & W3 & E3)].
  { left. exists e, w'. erewrite bind_Raise; [reflexivity|].
    erewrite bind_Ok by exact E1. erewrite bind_Ok by exact E2.
    erewrite bind_Raise; [reflexivity|exact E3]. }
  right. exists input_files, {| fs := r3; events := events w2 |}.
  assert (N12 : path_div input_dir "case_001_t2w.mha"
                <> path_div input_dir "case_001_adc.mha")
    by (intros H; apply path_div_inj in H; discriminate).
  assert (N13 : path_div input_dir "case_001_t2w.mha"
                <> path_div input_dir "case_001_hbv.mha")
    by (intros H; apply path_div_inj in H; discriminate).
  assert (N23 : path_div input_dir "case_001_adc.mha"
                <> path_div input_dir "case_001_hbv.mha")
    by (intros H; apply path_div_inj in H; discriminate).
  simpl fs in *.
  split; [|split; [|split; [|split]]].
  - erewrite bind_Ok; [reflexivity|].
    erewrite bind_Ok by exact E1. erewrite bind_Ok by exact E2.
    erewrite bind_Ok by exact E3. reflexivity.
  - subst input_files. rewrite !dom_insert_L, dom_singleton_L. set_solver.
  - split; [exact Ht|]. exists v1. apply fs_write_lookup_same in W1.
    eapply fs_write_lookup_other; [exact W3| |exact N13].
    eapply fs_write_lookup_other; [exact W2|exact W1|exact N12].
  - split; [exact Ha|]. exists v2. apply fs_write_lookup_same in W2.
    eapply fs_write_lookup_other; [exact W3|exact W2|exact N23].
  - split; [exact Hh|]. exists v3. now apply fs_write_lookup_same in W3.
Qed.

(** ** [subprocess.run] in closed form *)

Lemma subprocess_run_eq (env : Env) cmd check timeout (w : World) :
  subprocess_run env cmd check timeout w
  = let evs := (events w ++ [Spawn cmd timeout])%list in
    match os_exec env cmd (fs w) with
    | (SpawnFails e, _) => (Raise e, {| fs := fs w; events := evs |})
    | (Runs duration rc out err, root') =>
        if match timeout with
           | Some t => Qle_bool duration t
           | None => true
           end
        then
          if check && negb (rc =? 0)
          then (Raise (Exn CalledProcessError
                         "Command returned non-zero exit status"),
                {| fs := root'; events := evs |})
          else (Ok {| returncode := rc; stdout := out; stderr := err |},
                {| fs := root'; events := evs |})
        else (Raise (Exn TimeoutExpired "Command timed out"),
              {| fs := root'; events := (evs ++ [Kill cmd])%list |})
    end.
Proof.
  unfold subprocess_run, bind, log_event, get_fs, set_fs, reraise, ret, raise.
  cbn. destruct (os_exec env cmd (fs w)) as [[e|d rc out err] root']; cbn.
  - reflexivity.
  - destruct timeout as [t|]; [destruct (Qle_bool d t)|]; cbn;
      try reflexivity; destruct (check && negb (rc =? 0)); reflexivity.
Qed.

(** ** The availability probe *)

(** C6 (as the code has it): the probe returns [True] exactly when the
    version query runs and exits with status zero, and [False] when it
    exits with another status or when the spawn fails with
    [FileNotFoundError]; any other error of the spawn, such as
    [PermissionError], is not caught and reaches the caller. *)
Theorem check_docker_available_cases (env : Env) (w : World) :
  match os_exec env ["docker"; "--version"] (fs w) with
  | (Runs _ rc _ _, _) =>
      fst (check_docker_available env w) = Ok (rc =? 0)
  | (SpawnFails e, _) =>
      fst (check_docker_available env w)
      = if isinstance e [CalledProcessError; FileNotFoundError]
        then Ok false else Raise e
  end.
Proof.
  unfold check_docker_available, try_except, bind.
  rewrite subprocess_run_eq. cbv zeta.
  destruct (os_exec env ["docker"; "--version"] (fs w))
    as [[e|d rc out err] root'].
  - cbn [find_handler].
    destruct (isinstance e [CalledProcessError; FileNotFoundError]);
      reflexivity.
  - destruct (rc =? 0); reflexivity.
Qed.

(** C6 (as stated) fails: a [PermissionError] of the spawn escapes the
    probe. *)
Lemma check_docker_available_raises :
  fst (check_docker_available env_permission_denied empty_world)
  = Raise (Exn PermissionError "[Errno 13] Permission denied: 'docker'").
Proof. reflexivity. Qed.

(** ** The container run *)

Lemma spawn_count_snoc_spawn evs cmd timeout :
  spawn_count (evs ++ [Spawn cmd timeout]) = S (spawn_count evs).
Proof.
  unfold spawn_count. rewrite List.filter_app, List.length_app. simpl. lia.
Qed.

Lemma spawn_count_snoc_kill evs cmd :
  spawn_count (evs ++ [Kill cmd]) = spawn_count evs.
Proof.
  unfold spawn_count. rewrite List.filter_app, List.length_app. simpl. lia.
Qed.

(** Every modelled class derives from [Exception]. *)
Lemma isinstance_Exception (e : exn) : isinstance e [Exception] = true.
Proof. destruct e as [[] msg]; reflexivity. Qed.

(** C4: one call of the container step spawns exactly one process, the
    [docker run] command with a timeout of 300 seconds, and nothing else;
    when the container runs longer than that, the process is killed and
    the step raises the timed-out error, without a second spawn. *)
Theorem run_container_one_invocation
  (env : Env) (input_dir output_path : path) (w : World) :
  let cmd := docker_run_cmd env input_dir output_path in
  let r := run_container env input_dir output_path w in
  spawn_count (events (snd r)) = S (spawn_count (events w)) /\
  match os_exec env cmd (fs w) with
  | (SpawnFails _, _) =>
      events (snd r) = (events w ++ [Spawn cmd (Some 300%Q)])%list
  | (Runs duration _ _ _, _) =>
      if Qle_bool duration 300
      then events (snd r) = (events w ++ [Spawn cmd (Some 300%Q)])%list
      else events (snd r)
           = (events w ++ [Spawn cmd (Some 300%Q); Kill cmd])%list
           /\ fst r = Raise (Exn RuntimeError
                               "Docker inference timed out after 5 minutes")
  end.
Proof.
  cbv zeta. unfold run_container, try_except, bind.
  fold (docker_run_cmd env input_dir output_path).
  rewrite subprocess_run_eq. cbv zeta.
  destruct (os_exec env (docker_run_cmd env input_dir output_path) (fs w))
    as [[e|d rc out err] root'].
  - cbn [find_handler]. rewrite isinstance_Exception.
    destruct (isinstance e [TimeoutExpired]); cbn -[spawn_count];
      (split; [apply spawn_count_snoc_spawn|reflexivity]).
  - destruct (Qle_bool d 300); cbn -[spawn_count].
    + destruct (rc =? 0); cbn -[spawn_count];
        (split; [apply spawn_count_snoc_spawn|reflexivity]).
    + split; [|split; [now rewrite <- app_assoc|reflexivity]].
      rewrite spawn_count_snoc_kill. apply spawn_count_snoc_spawn.
Qed.

(** C10: when the container exits in time with a non-zero status, the
    [RuntimeError] raised for it inside the [try] is caught by the
    [except Exception] clause and wrapped again: the caller sees
    "Error running Docker: Docker inference failed: <stderr>", not the
    single-level message. *)
Theorem run_container_failure_wrapped_twice
  (env : Env) (input_dir output_path : path) (w : World)
  (duration : Q) (rc : Z) (out err : string) (root' : node) :
  os_exec env (docker_run_cmd env input_dir output_path) (fs w)
    = (Runs duration rc out err, root') ->
  (duration <= 300)%Q ->
  rc <> 0 ->
  fst (run_container env input_dir output_path w)
    = Raise (Exn RuntimeError
               ("Error running Docker: Docker inference failed: " ++ err))
  /\ fst (run_container env input_dir output_path w)
     <> Raise (Exn RuntimeError ("Docker inference failed: " ++ err)).
Proof.
  intros Hexec Hd Hrc.
  assert (E : fst (run_container env input_dir output_path w)
              = Raise (Exn RuntimeError
                  ("Error running Docker: Docker inference failed: " ++ err))).
  { unfold run_container, try_except, bind.
    fold (docker_run_cmd env input_dir output_path).
    rewrite subprocess_run_eq, Hexec. cbv zeta.
    apply Qle_bool_iff in Hd. rewrite Hd.
    apply Z.eqb_neq in Hrc. cbn. rewrite Hrc. reflexivity. }
  split; [exact E|]. rewrite E. intros H. inversion H.
Qed.

(** ** The statistics *)

Section StatisticsFacts.

Local Open Scope Q_scope.

Lemma Qmax_cases (x y : Q) : Qmax x y = x \/ Qmax x y = y.
Proof.
  unfold Qmax, GenericMinMax.gmax. destruct (x ?= y); auto.
Qed.

Lemma fold_left_Qmax_init (a : list Q) (x : Q) : x <= fold_left Qmax a x.
Proof.
  revert x. induction a as [|y a IH]; intros x; simpl.
  - apply Qle_refl.
  - eapply Qle_trans; [apply Q.le_max_l|apply IH].
Qed.

Lemma fold_left_Qmax_upper (a : list Q) (x : Q) :
  Forall (fun v => v <= fold_left Qmax a x) a.
Proof.
  revert x. induction a as [|y a IH]; intros x; simpl; constructor.
  - eapply Qle_trans; [apply Q.le_max_r|apply fold_left_Qmax_init].
  - apply IH.
Qed.

Lemma fold_left_Qmax_In (a : list Q) (x : Q) :
  In (fold_left Qmax a x) (x :: a).
Proof.
  revert x. induction a as [|y a IH]; intros x; simpl.
  - now left.
  - destruct (IH (Qmax x y)) as [H|H].
    + destruct (Qmax_cases x y) as [E|E]; [left|right; left]; congruence.
    + auto.
Qed.



Lemma greater_bool_spec (t v : Q) :
  negb (Qle_bool v t) = if Qlt_le_dec t v then true else false.
Proof.
  destruct (Qlt_le_dec t v) as [Hlt|Hle].
  - destruct (Qle_bool v t) eqn:E; [|reflexivity].
    apply Qle_bool_iff in E. exfalso. eapply Qlt_not_le; eassumption.
  - apply Qle_bool_iff in Hle. now rewrite Hle.
Qed.

Lemma fold_left_count (m : list bool) (acc : Z) :
  fold_left (fun (acc : Z) (b : bool) => if b then (acc + 1)%Z else acc) m acc
  = (acc + Z.of_nat (length (List.filter (fun b => b) m)))%Z.
Proof.
  revert acc. induction m as [|b m IH]; intros acc; simpl.
  - lia.
  - rewrite IH. destruct b; simpl length; lia.
Qed.

(** The masked count of the code is the number of voxels above [t]. *)
Lemma np_sum_bool_greater (a : list Q) (t : Q) :
  np_sum_bool (np_greater a t) = Z.of_nat (count_above t a).
Proof.
  unfold np_sum_bool, np_greater, count_above. rewrite fold_left_count.
  rewrite Z.add_0_l. f_equal.
  induction a as [|x a IH]; simpl; [reflexivity|].
  rewrite greater_bool_spec. destruct (Qlt_le_dec t x); simpl; now rewrite IH.
Qed.


Lemma count_above_all (t : Q) (a : list Q) :
  Forall (fun v => t < v) a -> count_above t a = length a.
Proof.
  unfold count_above. induction 1 as [|x a Hx _ IH]; simpl; [reflexivity|].
  destruct (Qlt_le_dec t x) as [_|Hle]; simpl.
  - now rewrite IH.
  - exfalso. eapply Qlt_not_le; eassumption.
Qed.

End StatisticsFacts.

(** On a non-empty array the statistics step returns, without touching
    the world, the dictionary of the four reductions. *)
Lemma compute_statistics_cons (env : Env) (x : Q) (a : list Q) (w : World) :
  compute_statistics env (x :: a) w
  = (Ok ({[ "mean_probability" := PFloat (float_mean env (x :: a));
            "max_probability" := PFloat (Finite (fold_left Qmax a x));
            "positive_voxels" :=
              PInt (np_sum_bool (np_greater (x :: a) (1 # 2)));
            "total_voxels" := PInt (np_size (x :: a)) ]}
         : gmap string pyval), w).
Proof. reflexivity. Qed.





(** C7 (as the code has it): the statistics step is total on non-empty
    arrays: whatever the voxel values, all zero and all above the
    threshold included, it returns a dictionary and leaves the world
    untouched. *)
Theorem compute_statistics_total_nonempty
  (env : Env) (a : list Q) (w : World) :
  a <> [] ->
  exists stats : gmap string pyval,
    compute_statistics env a w = (Ok stats, w).
Proof.
  destruct a as [|x a]; [congruence|]. intros _.
  eexists. apply compute_statistics_cons.
Qed.

(** C7 (as stated) fails on the empty array: [np.max] has no value there
    and raises. *)
Lemma compute_statistics_empty_raises :
  compute_statistics env_binary64 [] empty_world
  = (Raise (Exn ValueError
       "zero-size array to reduction operation maximum which has no identity"),
     empty_world).
Proof. reflexivity. Qed.

(** ** Matching of file names *)

Section MatchingFacts.

Lemma string_app_nil (t : string) : "" ++ t = t.
Proof. reflexivity. Qed.

Lemma string_app_cons (c : ascii) (s t : string) :
  String c s ++ t = String c (s ++ t).
Proof. reflexivity. Qed.

Lemma string_app_assoc (s t u : string) : (s ++ t) ++ u = s ++ (t ++ u).
Proof.
  induction s as [|c s IH]; [reflexivity|].
  rewrite !string_app_cons. now rewrite IH.
Qed.

Lemma string_snoc_inj (s t : string) (c d : ascii) :
  s ++ String c "" = t ++ String d "" -> c = d.
Proof.
  revert t. induction s as [|a s IH]; intros [|b t] H;
    rewrite ?string_app_nil, ?string_app_cons in H.
  - congruence.
  - destruct t; discriminate.
  - destruct s; discriminate.
  - inversion H. eauto.
Qed.

Lemma fnmatch_star_unfold (pat s : string) :
  fnmatch (String "*" pat) s
  = fnmatch pat s
    || match s with
       | EmptyString => false
       | String _ s' => fnmatch (String "*" pat) s'
       end.
Proof. destruct s; reflexivity. Qed.

Lemma fnmatch_literal (pat s : string) :
  literal pat = true -> (fnmatch pat s = true <-> s = pat).
Proof.
  revert s. induction pat as [|c pat IH]; intros s Hlit.
  - destruct s; simpl; split; congruence.
  - simpl in Hlit. apply andb_prop in Hlit as [Hc Hlit].
    apply andb_prop in Hc as [Hstar Hq].
    apply negb_true_iff in Hstar, Hq.
    simpl. rewrite Hstar. destruct s as [|d s].
    + split; congruence.
    + rewrite Hq. simpl. rewrite andb_true_iff, IH by assumption.
      rewrite Ascii.eqb_eq. split.
      * intros [-> ->]. reflexivity.
      * intros H. inversion H. auto.
Qed.

(** A star before a literal matches exactly the names with that ending. *)
Lemma fnmatch_star_literal (pat s : string) :
  literal pat = true ->
  (fnmatch (String "*" pat) s = true <-> ends_with s pat).
Proof.
  intros Hlit. induction s as [|d s IH].
  - rewrite fnmatch_star_unfold, orb_false_r, fnmatch_literal by assumption.
    split.
    + intros ->. now exists "".
    + intros [pre H]. destruct pre; [exact H|discriminate].
  - rewrite fnmatch_star_unfold, orb_true_iff, IH, fnmatch_literal
      by assumption.
    split.
    + intros [->|[pre ->]]; [now exists ""|now exists (String d pre)].
    + intros [[|c pre] H]; [now left|].
      right. exists pre. rewrite string_app_cons in H. congruence.
Qed.

Lemma fnmatch_mha (name : string) :
  fnmatch "*.mha" name = true <-> ends_with name ".mha".
Proof. now apply fnmatch_star_literal. Qed.

Lemma fnmatch_nii_gz (name : string) :
  fnmatch "*.nii.gz" name = true <-> ends_with name ".nii.gz".
Proof. now apply fnmatch_star_literal. Qed.

(** No name has both endings. *)
Lemma mha_not_nii_gz (name : string) :
  ends_with name ".mha" -> ends_with name ".nii.gz" -> False.
Proof.
  intros [p ->] [q H].
  change ".mha" with (".mh" ++ "a") in H.
  change ".nii.gz" with (".nii.g" ++ "z") in H.
  rewrite <- !string_app_assoc in H.
  apply string_snoc_inj in H. discriminate.
Qed.

End MatchingFacts.

(** ** Resolution of the prediction file *)

Lemma path_name_div (p : path) (name : string) :
  path_name (path_div p name) = name.
Proof. unfold path_name, path_div. apply List.last_last. Qed.

Lemma find_prediction_eq (output_path : path) (w : World) :
  find_prediction output_path w
  = match prediction_files output_path (fs w) with
    | [] => (Raise (Exn RuntimeError
                      "No prediction file found in output directory"), w)
    | prediction_path :: _ => (Ok prediction_path, w)
    end.
Proof.
  unfold find_prediction, prediction_files, glob, bind, get_fs, ret, raise.
  destruct (map _ _ ++ map _ _)%list; reflexivity.
Qed.

Lemma filter_nil_iff {A} (f : A -> bool) (l : list A) :
  List.filter f l = [] <-> (forall x, In x l -> f x = false).
Proof.
  induction l as [|a l IH]; simpl.
  - split; [intros _ x []|reflexivity].
  - destruct (f a) eqn:Ea.
    + split; [discriminate|]. intros H. specialize (H a (or_introl eq_refl)).
      congruence.
    + rewrite IH. split.
      * intros H x [<-|Hin]; auto.
      * intros H x Hin. apply H. now right.
Qed.

(** The step raises exactly when no entry of [output_path] itself has one
    of the two endings: entries of subdirectories are not looked at. *)
Lemma find_prediction_raises_iff (output_path : path) (w : World) :
  (exists e, fst (find_prediction output_path w) = Raise e)
  <-> (forall name, In name (fs_scandir output_path (fs w)) ->
         ~ ends_with name ".mha" /\ ~ ends_with name ".nii.gz").
Proof.
  rewrite find_prediction_eq. unfold prediction_files.
  set (names := fs_scandir output_path (fs w)).
  split.
  - intros [e He] name Hin.
    destruct (map _ _ ++ map _ _)%list as [|p l] eqn:E; [|discriminate].
    apply app_eq_nil in E as [E1 E2].
    apply map_eq_nil in E1, E2.
    rewrite filter_nil_iff in E1, E2.
    rewrite <- fnmatch_mha, <- fnmatch_nii_gz, (E1 name Hin), (E2 name Hin).
    split; discriminate.
  - intros Hnone.
    assert (E1 : List.filter (fnmatch "*.mha") names = []).
    { apply filter_nil_iff. intros n Hin. apply not_true_is_false.
      rewrite fnmatch_mha. now apply Hnone. }
    assert (E2 : List.filter (fnmatch "*.nii.gz") names = []).
    { apply filter_nil_iff. intros n Hin. apply not_true_is_false.
      rewrite fnmatch_nii_gz. now apply Hnone. }
    rewrite E1, E2. simpl. eauto.
Qed.

Lemma glob_names_In (output_path : path) (pattern : string)
  (names : list string) (p : path) :
  In p (map (path_div output_path) (List.filter (fnmatch pattern) names)) ->
  In (path_name p) names /\ fnmatch pattern (path_name p) = true.
Proof.
  rewrite in_map_iff. intros (name & <- & Hin).
  rewrite path_name_div. now apply List.filter_In in Hin.
Qed.

(** C8: when [output_path] has an entry ending in [.mha], the step
    resolves to an entry of [output_path] that ends in [.mha], whatever
    [.nii.gz] entries exist; in the candidate list every [.mha] candidate
    stands before every [.nii.gz] candidate. *)
Theorem find_prediction_prefers_mha
  (output_path : path) (w : World) (name0 : string) :
  In name0 (fs_scandir output_path (fs w)) ->
  ends_with name0 ".mha" ->
  (exists name,
      In name (fs_scandir output_path (fs w))
      /\ ends_with name ".mha"
      /\ find_prediction output_path w = (Ok (path_div output_path name), w))
  /\ (forall (i j : nat) (p q : path),
        nth_error (prediction_files output_path (fs w)) i = Some p ->
        nth_error (prediction_files output_path (fs w)) j = Some q ->
        ends_with (path_name p) ".mha" ->
        ends_with (path_name q) ".nii.gz" ->
        (i < j)%nat).
Proof.
  intros Hin0 Hend0. rewrite find_prediction_eq. unfold prediction_files.
  set (names := fs_scandir output_path (fs w)) in *.
  split.
  - destruct (List.filter (fnmatch "*.mha") names) as [|n l] eqn:E.
    + rewrite filter_nil_iff in E. apply fnmatch_mha in Hend0.
      rewrite (E name0 Hin0) in Hend0. discriminate.
    + assert (Hn : In n (List.filter (fnmatch "*.mha") names))
        by (rewrite E; now left).
      apply List.filter_In in Hn as [Hn Hm]. apply fnmatch_mha in Hm.
      exists n. simpl. auto.
  - intros i j p q Hi Hj Hp Hq.
    set (A := map (path_div output_path)
                (List.filter (fnmatch "*.mha") names)) in *.
    set (B := map (path_div output_path)
                (List.filter (fnmatch "*.nii.gz") names)) in *.
    destruct (lt_dec i (length A)) as [Hia|Hia].
    + destruct (lt_dec j (length A)) as [Hja|Hja]; [|lia].
      rewrite nth_error_app1 in Hj by assumption.
      apply nth_error_In, glob_names_In in Hj as [_ Hm].
      apply fnmatch_mha in Hm. destruct (mha_not_nii_gz _ Hm Hq).
    + rewrite nth_error_app2 in Hi by lia.
      apply nth_error_In, glob_names_In in Hi as [_ Hm].
      apply fnmatch_nii_gz in Hm. destruct (mha_not_nii_gz _ Hp Hm).
Qed.

(** ** The output location of the algorithm *)

(** C1 (the code departs from it): the container writes its detection
    map to [output/images/cspca-detection-map/], the directory that the
    pipeline itself creates for it; the file is there after the run, has
    the ending [.mha], and yet the resolution step, which looks only at
    the entries of [output] itself, raises "No prediction file found". *)
Theorem find_prediction_misses_algorithm_output :
  let w := snd (Runs.run (Runs.docker_env 42 0 "" Runs.algorithm_output)) in
  fs_lookup Runs.algorithm_output (fs w)
    = Some (File (Volume Runs.detection_map))
  /\ ends_with (path_name Runs.algorithm_output) ".mha"
  /\ find_prediction ["work"; "output"] w
     = (Raise (Exn RuntimeError
                 "No prediction file found in output directory"), w)
  /\ fst (Runs.run (Runs.docker_env 42 0 "" Runs.algorithm_output))
     = Raise (Exn RuntimeError
                "No prediction file found in output directory").
Proof.
  cbv zeta. split; [|split; [|split]].
  - vm_compute. reflexivity.
  - exists "cspca_detection_map". reflexivity.
  - vm_compute. reflexivity.
  - vm_compute. reflexivity.
Qed.

(** ** The result bundle *)

Lemma ret_Ok_inv {A} (a b : A) (w w' : World) :
  ret a w = (Ok b, w') -> b = a /\ w' = w.
Proof. unfold ret. intros H. inversion H. auto. Qed.

Lemma stage_inputs_Ok_inv t2w_path adc_path hbv_path input_dir w m w' :
  stage_inputs t2w_path adc_path hbv_path input_dir w = (Ok m, w') ->
  m = {[ "t2w" := path_div input_dir "case_001_t2w.mha";
         "adc" := path_div input_dir "case_001_adc.mha";
         "hbv" := path_div input_dir "case_001_hbv.mha" ]}.
Proof.
  unfold stage_inputs. intros H. bind_inv H.
  apply ret_Ok_inv in H as [-> _]. reflexivity.
Qed.

Lemma find_prediction_Ok_inv output_path w p w' :
  find_prediction output_path w = (Ok p, w') -> w' = w.
Proof.
  rewrite find_prediction_eq.
  destruct (prediction_files output_path (fs w)); intros H; inversion H; auto.
Qed.

Lemma ReadImage_Ok_inv p w v w' :
  ReadImage p w = (Ok v, w') ->
  w' = w /\ fs_lookup p (fs w) = Some (File (Volume v)).
Proof.
  unfold ReadImage, bind, get_fs, ret, raise.
  destruct (fs_lookup p (fs w)) as [[[v0|]|]|]; intros H; inversion H; auto.
Qed.

Lemma compute_statistics_Ok_inv (env : Env) a w stats w' :
  compute_statistics env a w = (Ok stats, w') ->
  w' = w
  /\ dom stats
     = ({[ "mean_probability"; "max_probability"; "positive_voxels";
           "total_voxels" ]} : gset string).
Proof.
  destruct a as [|x a]; [discriminate|].
  rewrite compute_statistics_cons. intros H. inversion H. split; [reflexivity|].
  rewrite !dom_insert_L, dom_singleton_L. set_solver.
Qed.

(** C5: a successful run returns the dictionary with exactly the keys
    status, prediction_path, t2w_path, adc_path, hbv_path and statistics:
    the status is "success", the three input paths are the staged files
    [<output_dir>/input/images/case_001_<modality>.mha], the prediction
    path is the file that the resolution step selects and that is read,
    and the statistics are those of that file, under exactly the keys
    mean_probability, max_probability, positive_voxels and
    total_voxels. *)
Theorem run_picai_inference_result
  (env : Env) (t2w_path adc_path hbv_path output_dir : path)
  (w w' : World) (result : gmap string pyval) :
  run_picai_inference env t2w_path adc_path hbv_path output_dir w
    = (Ok result, w') ->
  let input_dir := path_div (path_div output_dir "input") "images" in
  let output_path := path_div output_dir "output" in
  exists (prediction_path : path) (pred_array : list Q)
         (stats : gmap string pyval),
    result
    = {[ "status" := PStr "success";
         "prediction_path" := PStr (path_str prediction_path);
         "t2w_path" := PStr (path_str (path_div input_dir "case_001_t2w.mha"));
         "adc_path" := PStr (path_str (path_div input_dir "case_001_adc.mha"));
         "hbv_path" := PStr (path_str (path_div input_dir "case_001_hbv.mha"));
         "statistics" := PDict stats ]}
    /\ dom result
       = ({[ "status"; "prediction_path"; "t2w_path"; "adc_path"; "hbv_path";
             "statistics" ]} : gset string)
    /\ dom stats
       = ({[ "mean_probability"; "max_probability"; "positive_voxels";
             "total_voxels" ]} : gset string)
    /\ find_prediction output_path w' = (Ok prediction_path, w')
    /\ fs_lookup prediction_path (fs w') = Some (File (Volume pred_array))
    /\ compute_statistics env pred_array w' = (Ok stats, w').
Proof.
  intros H. cbv zeta. unfold run_picai_inference in H.
  set (input_dir := path_div (path_div output_dir "input") "images") in *.
  set (output_path := path_div output_dir "output") in *.
  bind_inv H. bind_inv H. bind_inv H.
  apply bind_Ok_inv in H as (input_files & w3 & Estage & H).
  apply stage_inputs_Ok_inv in Estage. subst input_files.
  bind_inv H.
  apply bind_Ok_inv in H as (prediction_path & w5 & Efind & H).
  apply bind_Ok_inv in H as (pred_array & w6 & Eread & H).
  apply bind_Ok_inv in H as (stats & w7 & Estats & H).
  pose proof (find_prediction_Ok_inv _ _ _ _ Efind) as ->.
  apply ReadImage_Ok_inv in Eread as [-> Eread].
  pose proof (compute_statistics_Ok_inv _ _ _ _ _ Estats) as [-> Hdom].
  apply bind_Ok_inv in H as (t2w & w8 & Et & H).
  apply bind_Ok_inv in H as (adc & w9 & Ea & H).
  apply bind_Ok_inv in H as (hbv & w10 & Eh & H).
  apply ret_Ok_inv in Et as [-> ->].
  apply ret_Ok_inv in Ea as [-> ->].
  apply ret_Ok_inv in Eh as [-> ->].
  apply ret_Ok_inv in H as [-> ->].
  exists prediction_path, pred_array, stats.
  split; [reflexivity|]. split; [|auto].
  rewrite !dom_insert_L, dom_singleton_L. set_solver.
Qed.

(** ** The theorems at concrete inputs *)



(** An all-zero volume. *)
Lemma compute_statistics_total_nonempty_witness :
  [0; 0; 0]%Q <> []
  /\ exists stats : gmap string pyval,
       compute_statistics env_binary64 [0; 0; 0]%Q empty_world
       = (Ok stats, empty_world).
Proof.
  split; [discriminate|].
  apply (compute_statistics_total_nonempty env_binary64 [0; 0; 0]%Q
           empty_world).
  discriminate.
Defined.

(** The [.mha] entry wins although the scan yields it second. *)
Lemma find_prediction_prefers_mha_witness :
  In "a.mha" (fs_scandir ["out"] (fs both_formats))
  /\ ends_with "a.mha" ".mha"
  /\ exists name,
       In name (fs_scandir ["out"] (fs both_formats))
       /\ ends_with name ".mha"
       /\ find_prediction ["out"] both_formats
          = (Ok (path_div ["out"] name), both_formats).
Proof.
  assert (Hin : In "a.mha" (fs_scandir ["out"] (fs both_formats)))
    by (simpl; auto).
  assert (Hend : ends_with "a.mha" ".mha") by (exists "a"; reflexivity).
  split; [exact Hin|]. split; [exact Hend|].
  exact (proj1 (find_prediction_prefers_mha ["out"] both_formats "a.mha"
                  Hin Hend)).
Defined.

(** A container that fails after 42 seconds with a message on its error
    stream. *)
Lemma run_container_failure_wrapped_twice_witness :
  fst (run_container (Runs.docker_env 42 1 "CUDA out of memory" [])
         ["work"; "input"; "images"] ["work"; "output"] Runs.start)
  = Raise (Exn RuntimeError
       "Error running Docker: Docker inference failed: CUDA out of memory").
Proof.
  refine (proj1 (run_container_failure_wrapped_twice
                   (Runs.docker_env 42 1 "CUDA out of memory" [])
                   ["work"; "input"; "images"] ["work"; "output"] Runs.start
                   42 1 "" "CUDA out of memory" Runs.uploads _ _ _)).
  - reflexivity.
  - apply Qle_bool_imp_le. reflexivity.
  - discriminate.
Defined.

(** A run in which the container leaves its prediction in [output]
    itself. *)
Lemma run_picai_inference_result_witness :
  exists (result : gmap string pyval) (w' : World),
    Runs.run (Runs.docker_env 42 0 "" ["work"; "output"; "prediction.mha"])
    = (Ok result, w')
    /\ dom result
       = ({[ "status"; "prediction_path"; "t2w_path"; "adc_path"; "hbv_path";
             "statistics" ]} : gset string)
    /\ result !! "status" = Some (PStr "success").
Proof.
  destruct (Runs.run
              (Runs.docker_env 42 0 "" ["work"; "output"; "prediction.mha"]))
    as [[result|e] w'] eqn:E.
  - exists result, w'. split; [reflexivity|].
    unfold Runs.run in E.
    destruct (run_picai_inference_result _ _ _ _ _ _ _ _ E)
      as (p & a & stats & Hres & Hdom & _).
    split; [exact Hdom|]. rewrite Hres. reflexivity.
  - exfalso. vm_compute in E. discriminate.
Defined.

(** ** Further runs *)

(** Staging fails on the second input: no manifest, although the first
    file has already been written. *)
Example stage_inputs_second_input_missing :
  let r := stage_inputs ["data"; "t2w.mha"] ["data"; "missing.mha"]
             ["data"; "hbv.nii.gz"] ["work"]
             Runs.start in
  fst r = Raise (Exn RuntimeError
                   "Exception thrown in SimpleITK ImageFileReader")
  /\ fs_lookup ["work"; "case_001_t2w.mha"] (fs (snd r))
     = Some (File (Volume [1; 2; 3; 4]%Q))
  /\ fs_lookup ["work"; "case_001_adc.mha"] (fs (snd r)) = None.
Proof. cbv zeta. repeat split; vm_compute; reflexivity. Qed.

(** A container that runs for 301 seconds is killed, the pipeline reports
    the timeout and spawns nothing further. *)
Example run_times_out :
  let r := Runs.run (Runs.docker_env 301 0 "" Runs.algorithm_output) in
  fst r = Raise (Exn RuntimeError "Docker inference timed out after 5 minutes")
  /\ events (snd r)
     = [ Spawn ["docker"; "--version"] None;
         Spawn ["docker"; "run"; "--rm"; "-v"; "/work:/input";
                "-v"; "/work/output:/output";
                "picai_nnunet_gc_algorithm:latest"] (Some 300%Q);
         Kill ["docker"; "run"; "--rm"; "-v"; "/work:/input";
               "-v"; "/work/output:/output";
               "picai_nnunet_gc_algorithm:latest"] ].
Proof. cbv zeta. split; vm_compute; reflexivity. Qed.

(** The failure of the container as the caller of the pipeline sees it. *)
Example run_reports_container_failure :
  fst (Runs.run (Runs.docker_env 42 1 "CUDA out of memory"
                   Runs.algorithm_output))
  = Raise (Exn RuntimeError
       "Error running Docker: Docker inference failed: CUDA out of memory").
Proof. vm_compute. reflexivity. Qed.

(** A successful run on a prediction left in [output] itself. *)
Example run_succeeds :
  match fst (Runs.run (Runs.docker_env 42 0 ""
                         ["work"; "output"; "prediction.mha"])) with
  | Ok result =>
      result !! "prediction_path" = Some (PStr "/work/output/prediction.mha")
      /\ result !! "t2w_path"
         = Some (PStr "/work/input/images/case_001_t2w.mha")
      /\ match result !! "statistics" with
         | Some (PDict stats) =>
             stats !! "positive_voxels" = Some (PInt 2)
             /\ stats !! "total_voxels" = Some (PInt 4)
             /\ stats !! "max_probability" = Some (PFloat (Finite (9 # 10)))
         | _ => False
         end
  | Raise _ => False
  end.
Proof. vm_compute. repeat split. Qed.

(** * Further properties of the code *)

(** ** Creation of directories *)

Section MkdirFacts.

Implicit Types (x y : string) (n m : node) (es : list (string * node)).
Implicit Types (p q : path) (c : content).

Lemma entry_set_get_id x n es : entry_get x es = Some n -> entry_set x n es = es.
Proof.
  induction es as [|[y m] es IH]; simpl; [discriminate|].
  destruct (String.eqb_spec x y) as [->|Hxy].
  - intros H. inversion H. reflexivity.
  - intros H. now rewrite IH.
Qed.

Lemma fs_lookup_div_dir p x n a :
  fs_lookup (path_div p x) n = Some a -> is_dir p n.
Proof.
  unfold path_div. revert n. induction p as [|y p IH]; intros n H.
  - destruct n as [|es]; [discriminate|]. now exists es.
  - simpl in H. destruct n as [|es]; [discriminate|].
    destruct (entry_get y es) as [d|] eqn:Ey; [|discriminate].
    destruct (IH d H) as [es' H']. exists es'. simpl. now rewrite Ey.
Qed.

(** The directory asked for exists afterwards. *)
Lemma fs_mkdir_p_is_dir p n n' : fs_mkdir_p p n = Some n' -> is_dir p n'.
Proof.
  revert n n'. induction p as [|x p IH]; intros n n' H;
    destruct n as [|es]; simpl in H; try discriminate.
  - inversion H. now exists es.
  - destruct (fs_mkdir_p p _) as [d'|] eqn:Ed; [|discriminate].
    inversion H. destruct (IH _ _ Ed) as [es' H'].
    exists es'. simpl. now rewrite entry_get_set_same.
Qed.

(** Whatever was there stays, a file with its content, a directory as a
    directory. *)
Lemma fs_mkdir_p_preserves p q n n' a :
  fs_mkdir_p p n = Some n' ->
  fs_lookup q n = Some a ->
  exists b, fs_lookup q n' = Some b /\ same_kind a b.
Proof.
  revert q n n' a. induction p as [|x p IH]; intros q n n' a H Hq;
    destruct n as [|es]; simpl in H; try discriminate.
  - inversion H; subst. exists a. split; [assumption|].
    destruct a; simpl; auto.
  - destruct (fs_mkdir_p p _) as [d'|] eqn:Ed; [|discriminate].
    inversion H; subst n'. destruct q as [|y q].
    + simpl in Hq. inversion Hq; subst a. eexists. split; [reflexivity|exact I].
    + cbn [fs_lookup] in *.
      destruct (entry_get y es) as [dy|] eqn:Ey; [|discriminate].
      destruct (String.eqb_spec x y) as [->|Hxy].
      * rewrite entry_get_set_same. rewrite Ey in Ed. eapply IH; eassumption.
      * rewrite entry_get_set_other, Ey by assumption.
        exists a. split; [assumption|]. destruct a; simpl; auto.
Qed.

(** [exist_ok=True]: a directory that exists is left as it is. *)
Lemma fs_mkdir_p_existing p n : is_dir p n -> fs_mkdir_p p n = Some n.
Proof.
  revert n. induction p as [|x p IH]; intros n [es' H].
  - simpl in H. inversion H. reflexivity.
  - simpl in H. destruct n as [|es]; [discriminate|].
    destruct (entry_get x es) as [d|] eqn:Ex; [|discriminate].
    simpl. rewrite Ex, (IH d) by (now exists es').
    now rewrite entry_set_get_id.
Qed.

Lemma same_kind_dir n b : (exists es, n = Dir es) -> same_kind n b ->
  exists es', b = Dir es'.
Proof. intros [es ->]. destruct b; simpl; [tauto|eauto]. Qed.

Lemma is_dir_mkdir_p p q n n' :
  fs_mkdir_p p n = Some n' -> is_dir q n -> is_dir q n'.
Proof.
  intros H [es Hq].
  destruct (fs_mkdir_p_preserves _ _ _ _ _ H Hq) as (b & Hb & Hk).
  destruct b as [|es']; [destruct Hk|]. now exists es'.
Qed.

End MkdirFacts.

Lemma mkdir_parents_exist_ok_Ok_inv p w w' :
  mkdir_parents_exist_ok p w = (Ok tt, w') ->
  fs_mkdir_p p (fs w) = Some (fs w') /\ events w' = events w.
Proof.
  unfold mkdir_parents_exist_ok, bind, get_fs, set_fs, raise.
  destruct (fs_mkdir_p p (fs w)) as [root'|]; intros H; inversion H.
  simpl. auto.
Qed.

Lemma chmod_rwx_all_Ok_inv p w w' :
  chmod_rwx_all p w = (Ok tt, w') -> w' = w.
Proof.
  unfold chmod_rwx_all, bind, get_fs, ret, raise.
  destruct (fs_lookup p (fs w)); intros H; inversion H. reflexivity.
Qed.

Lemma prepare_workspace_Ok_inv input_dir output_path w w' :
  prepare_workspace input_dir output_path w = (Ok tt, w') ->
  exists r1 r2,
    fs_mkdir_p input_dir (fs w) = Some r1
    /\ fs_mkdir_p output_path r1 = Some r2
    /\ fs_mkdir_p
         (path_div (path_div output_path "images") "cspca-detection-map") r2
       = Some (fs w')
    /\ events w' = events w.
Proof.
  unfold prepare_workspace. intros H.
  apply bind_Ok_inv in H as ([] & w1 & E1 & H).
  apply bind_Ok_inv in H as ([] & w2 & E2 & H).
  apply bind_Ok_inv in H as ([] & w3 & E3 & H).
  apply bind_Ok_inv in H as ([] & w4 & E4 & H).
  apply chmod_rwx_all_Ok_inv in E4, H. subst w4 w'.
  apply mkdir_parents_exist_ok_Ok_inv in E1 as [E1 V1].
  apply mkdir_parents_exist_ok_Ok_inv in E2 as [E2 V2].
  apply mkdir_parents_exist_ok_Ok_inv in E3 as [E3 V3].
  exists (fs w1), (fs w2). repeat split; try assumption. congruence.
Qed.

Lemma prepare_workspace_dirs input_dir output_path w w' :
  prepare_workspace input_dir output_path w = (Ok tt, w') ->
  is_dir input_dir (fs w')
  /\ is_dir output_path (fs w')
  /\ is_dir (path_div output_path "images") (fs w')
  /\ is_dir (path_div (path_div output_path "images") "cspca-detection-map")
       (fs w').
Proof.
  intros H.
  apply prepare_workspace_Ok_inv in H as (r1 & r2 & E1 & E2 & E3 & Hev).
  pose proof (fs_mkdir_p_is_dir _ _ _ E3) as D3.
  assert (D3' : is_dir (path_div output_path "images") (fs w')).
  { destruct D3 as [es D3]. eapply fs_lookup_div_dir. exact D3. }
  repeat split; try assumption.
  - eapply is_dir_mkdir_p; [exact E3|]. eapply is_dir_mkdir_p; [exact E2|].
    eapply fs_mkdir_p_is_dir; exact E1.
  - eapply is_dir_mkdir_p; [exact E3|]. eapply fs_mkdir_p_is_dir; exact E2.
Qed.

(** X1: when the workspace step returns, [input_dir], [output_path],
    [output_path/images] and [output_path/images/cspca-detection-map]
    are directories, every file that existed before is still there with
    its content, and no process has been spawned. *)
Theorem prepare_workspace_creates_layout
  (input_dir output_path : path) (w w' : World) :
  prepare_workspace input_dir output_path w = (Ok tt, w') ->
  is_dir input_dir (fs w')
  /\ is_dir output_path (fs w')
  /\ is_dir (path_div output_path "images") (fs w')
  /\ is_dir (path_div (path_div output_path "images") "cspca-detection-map")
       (fs w')
  /\ (forall q c, fs_lookup q (fs w) = Some (File c) ->
                  fs_lookup q (fs w') = Some (File c))
  /\ events w' = events w.
Proof.
  intros H.
  destruct (prepare_workspace_dirs _ _ _ _ H) as (D1 & D2 & D3 & D4).
  apply prepare_workspace_Ok_inv in H as (r1 & r2 & E1 & E2 & E3 & Hev).
  repeat split; try assumption.
  intros q c Hq.
  destruct (fs_mkdir_p_preserves _ _ _ _ _ E1 Hq) as ([c1|] & H1 & K1);
    [|destruct K1].
  destruct (fs_mkdir_p_preserves _ _ _ _ _ E2 H1) as ([c2|] & H2 & K2);
    [|destruct K2].
  destruct (fs_mkdir_p_preserves _ _ _ _ _ E3 H2) as ([c3|] & H3 & K3);
    [|destruct K3].
  simpl in K1, K2, K3. congruence.
Qed.

(** X2: the workspace step is idempotent: run again in the world that a
    successful call leaves, it succeeds and changes nothing. *)
Theorem prepare_workspace_idempotent
  (input_dir output_path : path) (w w' : World) :
  prepare_workspace input_dir output_path w = (Ok tt, w') ->
  prepare_workspace input_dir output_path w' = (Ok tt, w').
Proof.
  intros H.
  destruct (prepare_workspace_dirs _ _ _ _ H) as (D1 & D2 & D3 & D4).
  unfold prepare_workspace, mkdir_parents_exist_ok, chmod_rwx_all, bind,
    get_fs, set_fs, ret, raise.
  rewrite (fs_mkdir_p_existing _ _ D1). cbn [fs events].
  rewrite (fs_mkdir_p_existing _ _ D2). cbn [fs events].
  rewrite (fs_mkdir_p_existing _ _ D4). cbn [fs events].
  destruct D2 as [es2 ->]. cbn [fs events].
  destruct D3 as [es3 ->]. destruct w'; reflexivity.
Qed.

(** ** Staging: what is copied and what is left alone *)

(** Writing a file creates no other file. *)
Lemma fs_write_lookup_other_inv (p q : path) (c c0 : content) (n n' : node) :
  fs_write q c n = Some n' ->
  fs_lookup p n' = Some (File c0) ->
  p <> q ->
  fs_lookup p n = Some (File c0).
Proof.
  revert p n n'. induction q as [|x q IH]; intros p n n' Hw Hl Hne;
    simpl in Hw; [discriminate|].
  destruct n as [|es]; [discriminate|].
  destruct q as [|z q'].
  - assert (Hn' : n' = Dir (entry_set x (File c) es))
      by (destruct (entry_get x es) as [[|]|]; congruence).
    subst n'. destruct p as [|y p]; [simpl in Hl; discriminate|].
    cbn [fs_lookup] in *.
    destruct (String.eqb_spec x y) as [->|Hxy].
    + rewrite entry_get_set_same in Hl.
      apply fs_lookup_file_inv in Hl. subst p. congruence.
    + now rewrite entry_get_set_other in Hl by assumption.
  - destruct (entry_get x es) as [d|] eqn:Ed; [|discriminate].
    destruct (fs_write (z :: q') c d) as [d'|] eqn:Ew; [|discriminate].
    inversion Hw; subst n'.
    destruct p as [|y p]; [simpl in Hl; discriminate|].
    cbn [fs_lookup] in *.
    destruct (String.eqb_spec x y) as [->|Hxy].
    + rewrite entry_get_set_same in Hl. rewrite Ed.
      apply IH with d'; [assumption|assumption|congruence].
    + now rewrite entry_get_set_other in Hl by assumption.
Qed.

(** One turn of the staging loop, exactly: it raises and leaves the
    world as it is, or it reads a volume at [src_path] and writes it to
    the destination. *)
Lemma stage_one_spec (input_files : gmap string path) modality src_path dst w :
  input_files !! modality = Some dst ->
  (exists e,
      (img <- ReadImage src_path ;;
       dst' <- getitem input_files modality ;;
       WriteImage img dst')%py w = (Raise e, w))
  \/
  (exists v root',
      fs_lookup src_path (fs w) = Some (File (Volume v)) /\
      fs_write dst (Volume v) (fs w) = Some root' /\
      (img <- ReadImage src_path ;;
       dst' <- getitem input_files modality ;;
       WriteImage img dst')%py w
      = (Ok tt, {| fs := root'; events := events w |})).
Proof.
  intros Hdst. unfold ReadImage, WriteImage, getitem, bind, get_fs, set_fs,
    ret, raise. rewrite Hdst.
  destruct (fs_lookup src_path (fs w)) as [[[v|]|]|]; try (left; eauto; fail).
  destruct (fs_write dst (Volume v) (fs w)) as [root'|] eqn:Ew.
  - right. exists v, root'. auto.
  - left. eauto.
Qed.

(** The staging step as a chain of at most three writes. *)
Lemma stage_inputs_trace t2w_path adc_path hbv_path input_dir w :
  let d1 := path_div input_dir "case_001_t2w.mha" in
  let d2 := path_div input_dir "case_001_adc.mha" in
  let d3 := path_div input_dir "case_001_hbv.mha" in
  let r := stage_inputs t2w_path adc_path hbv_path input_dir w in
  (exists e, r = (Raise e, w))
  \/ (exists e v1 r1,
        fs_lookup t2w_path (fs w) = Some (File (Volume v1))
        /\ fs_write d1 (Volume v1) (fs w) = Some r1
        /\ r = (Raise e, {| fs := r1; events := events w |}))
  \/ (exists e v1 r1 v2 r2,
        fs_lookup t2w_path (fs w) = Some (File (Volume v1))
        /\ fs_write d1 (Volume v1) (fs w) = Some r1
        /\ fs_lookup adc_path r1 = Some (File (Volume v2))
        /\ fs_write d2 (Volume v2) r1 = Some r2
        /\ r = (Raise e, {| fs := r2; events := events w |}))
  \/ (exists m v1 r1 v2 r2 v3 r3,
        fs_lookup t2w_path (fs w) = Some (File (Volume v1))
        /\ fs_write d1 (Volume v1) (fs w) = Some r1
        /\ fs_lookup adc_path r1 = Some (File (Volume v2))
        /\ fs_write d2 (Volume v2) r1 = Some r2
        /\ fs_lookup hbv_path r2 = Some (File (Volume v3))
        /\ fs_write d3 (Volume v3) r2 = Some r3
        /\ r = (Ok m, {| fs := r3; events := events w |})).
Proof.
  cbv zeta. unfold stage_inputs. cbn [for_each].
  set (input_files :=
         ({[ "t2w" := path_div input_dir ("case_001" ++ "_t2w.mha");
             "adc" := path_div input_dir ("case_001" ++ "_adc.mha");
             "hbv" := path_div input_dir ("case_001" ++ "_hbv.mha") ]}
          : gmap string path)).
  assert (Ht : input_files !! "t2w"
               = Some (path_div input_dir "case_001_t2w.mha")) by reflexivity.
  assert (Ha : input_files !! "adc"
               = Some (path_div input_dir "case_001_adc.mha")) by reflexivity.
  assert (Hh : input_files !! "hbv"
               = Some (path_div input_dir "case_001_hbv.mha")) by reflexivity.
  destruct (stage_one_spec input_files "t2w" t2w_path _ w Ht)
    as [(e & E1)|(v1 & r1 & L1 & W1 & E1)].
  { left. exists e. erewrite bind_Raise; [reflexivity|].
    erewrite bind_Raise; [reflexivity|exact E1]. }
  right.
  set (w1 := {| fs := r1; events := events w |}) in *.
  destruct (stage_one_spec input_files "adc" adc_path _ w1 Ha)
    as [(e & E2)|(v2 & r2 & L2 & W2 & E2)].
  { left. exists e, v1, r1. repeat split; try assumption.
    erewrite bind_Raise; [reflexivity|].
    erewrite bind_Ok by exact E1.
    erewrite bind_Raise; [reflexivity|exact E2]. }
  right.
  set (w2 := {| fs := r2; events := events w1 |}) in *.
  destruct (stage_one_spec input_files "hbv" hbv_path _ w2 Hh)
    as [(e & E3)|(v3 & r3 & L3 & W3 & E3)].
  { left. exists e, v1, r1, v2, r2. repeat split; try assumption.
    erewrite bind_Raise; [reflexivity|].
    erewrite bind_Ok by exact E1. erewrite bind_Ok by exact E2.
    erewrite bind_Raise; [reflexivity|exact E3]. }
  right. exists input_files, v1, r1, v2, r2, v3, r3.
  repeat split; try assumption.
  erewrite bind_Ok; [reflexivity|].
  erewrite bind_Ok by exact E1. erewrite bind_Ok by exact E2.
  erewrite bind_Ok by exact E3. reflexivity.
Qed.

(** X3: when staging succeeds and no later source is an earlier
    destination, each staged file holds the volume that its source held
    before the call. *)
Theorem stage_inputs_copies_sources
  (t2w_path adc_path hbv_path input_dir : path) (w w' : World)
  (m : gmap string path) :
  stage_inputs t2w_path adc_path hbv_path input_dir w = (Ok m, w') ->
  adc_path <> path_div input_dir "case_001_t2w.mha" ->
  hbv_path <> path_div input_dir "case_001_t2w.mha" ->
  hbv_path <> path_div input_dir "case_001_adc.mha" ->
  exists v1 v2 v3 : list Q,
    fs_lookup t2w_path (fs w) = Some (File (Volume v1))
    /\ fs_lookup adc_path (fs w) = Some (File (Volume v2))
    /\ fs_lookup hbv_path (fs w) = Some (File (Volume v3))
    /\ fs_lookup (path_div input_dir "case_001_t2w.mha") (fs w')
       = Some (File (Volume v1))
    /\ fs_lookup (path_div input_dir "case_001_adc.mha") (fs w')
       = Some (File (Volume v2))
    /\ fs_lookup (path_div input_dir "case_001_hbv.mha") (fs w')
       = Some (File (Volume v3)).
Proof.
  intros Hrun Na1 Nh1 Nh2.
  destruct (stage_inputs_trace t2w_path adc_path hbv_path input_dir w)
    as [(e & E)|[(e & v1 & r1 & _ & _ & E)
       |[(e & v1 & r1 & v2 & r2 & _ & _ & _ & _ & E)
        |(m' & v1 & r1 & v2 & r2 & v3 & r3 & L1 & W1 & L2 & W2 & L3 & W3 & E)]]];
    rewrite E in Hrun; try discriminate.
  inversion Hrun; subst m' w'. clear Hrun E. cbn [fs].
  assert (N12 : path_div input_dir "case_001_t2w.mha"
                <> path_div input_dir "case_001_adc.mha")
    by (intros H; apply path_div_inj in H; discriminate).
  assert (N13 : path_div input_dir "case_001_t2w.mha"
                <> path_div input_dir "case_001_hbv.mha")
    by (intros H; apply path_div_inj in H; discriminate).
  assert (N23 : path_div input_dir "case_001_adc.mha"
                <> path_div input_dir "case_001_hbv.mha")
    by (intros H; apply path_div_inj in H; discriminate).
  exists v1, v2, v3. split; [exact L1|]. split; [|split; [|split; [|split]]].
  - eapply fs_write_lookup_other_inv; [exact W1|exact L2|exact Na1].
  - eapply fs_write_lookup_other_inv; [exact W1| |exact Nh1].
    eapply fs_write_lookup_other_inv; [exact W2|exact L3|exact Nh2].
  - eapply fs_write_lookup_other; [exact W3| |exact N13].
    eapply fs_write_lookup_other; [exact W2| |exact N12].
    eapply fs_write_lookup_same; exact W1.
  - eapply fs_write_lookup_other; [exact W3| |exact N23].
    eapply fs_write_lookup_same; exact W2.
  - eapply fs_write_lookup_same; exact W3.
Qed.

(** X4: whether it succeeds or fails, staging spawns no process and
    leaves every file other than its three destinations with the content
    it had. *)
Theorem stage_inputs_frame
  (t2w_path adc_path hbv_path input_dir : path) (w : World) :
  let r := stage_inputs t2w_path adc_path hbv_path input_dir w in
  events (snd r) = events w
  /\ forall (q : path) (c : content),
       q <> path_div input_dir "case_001_t2w.mha" ->
       q <> path_div input_dir "case_001_adc.mha" ->
       q <> path_div input_dir "case_001_hbv.mha" ->
       fs_lookup q (fs w) = Some (File c) ->
       fs_lookup q (fs (snd r)) = Some (File c).
Proof.
  cbv zeta.
  destruct (stage_inputs_trace t2w_path adc_path hbv_path input_dir w)
    as [(e & E)|[(e & v1 & r1 & _ & W1 & E)
       |[(e & v1 & r1 & v2 & r2 & _ & W1 & _ & W2 & E)
        |(m' & v1 & r1 & v2 & r2 & v3 & r3 & _ & W1 & _ & W2 & _ & W3 & E)]]];
    rewrite E; cbn [snd fs events]; (split; [reflexivity|]);
    intros q c N1 N2 N3 Hq.
  - exact Hq.
  - eapply fs_write_lookup_other; [exact W1|exact Hq|exact N1].
  - eapply fs_write_lookup_other; [exact W2| |exact N2].
    eapply fs_write_lookup_other; [exact W1|exact Hq|exact N1].
  - eapply fs_write_lookup_other; [exact W3| |exact N3].
    eapply fs_write_lookup_other; [exact W2| |exact N2].
    eapply fs_write_lookup_other; [exact W1|exact Hq|exact N1].
Qed.

(** The three uploads of [Runs.uploads], staged into [work]. *)
Lemma stage_inputs_copies_sources_witness :
  exists (m : gmap string path) (w' : World),
    stage_inputs ["data"; "t2w.mha"] ["data"; "adc.mha"]
      ["data"; "hbv.nii.gz"] ["work"] Runs.start = (Ok m, w')
    /\ fs_lookup ["work"; "case_001_hbv.mha"] (fs w')
       = Some (File (Volume [0; 0; 1; 1]%Q)).
Proof.
  destruct (stage_inputs ["data"; "t2w.mha"] ["data"; "adc.mha"]
              ["data"; "hbv.nii.gz"] ["work"] Runs.start)
    as [[m|e] w'] eqn:E.
  - exists m, w'. split; [reflexivity|].
    destruct (stage_inputs_copies_sources _ _ _ _ _ _ _ E)
      as (v1 & v2 & v3 & _ & _ & L3 & _ & _ & D3); try discriminate.
    vm_compute in L3. inversion L3; subst v3. exact D3.
  - exfalso. vm_compute in E. discriminate.
Defined.

(** ** Processes *)

Section QuietFacts.

Context {A B : Type}.

Lemma quiet_ret (a : A) : quiet (ret a).
Proof. intros w. reflexivity. Qed.

Lemma quiet_raise c msg : quiet (raise (A := A) c msg).
Proof. intros w. reflexivity. Qed.

Lemma quiet_bind (m : M A) (k : A -> M B) :
  quiet m -> (forall a, quiet (k a)) -> quiet (bind m k).
Proof.
  intros Hm Hk w. unfold bind. specialize (Hm w).
  destruct (m w) as [[a|e] w1]; simpl in *.
  - now rewrite Hk.
  - exact Hm.
Qed.

End QuietFacts.

Lemma quiet_get_fs : quiet get_fs.
Proof. intros w. reflexivity. Qed.

Lemma quiet_set_fs root : quiet (set_fs root).
Proof. intros w. reflexivity. Qed.

Lemma quiet_getitem {A} (d : gmap string A) key : quiet (getitem d key).
Proof.
  unfold getitem. destruct (d !! key); [apply quiet_ret|apply quiet_raise].
Qed.

Lemma quiet_ReadImage p : quiet (ReadImage p).
Proof.
  unfold ReadImage. apply quiet_bind; [apply quiet_get_fs|]. intros root.
  destruct (fs_lookup p root) as [[[v|]|]|];
    first [apply quiet_ret|apply quiet_raise].
Qed.

Lemma quiet_WriteImage img p : quiet (WriteImage img p).
Proof.
  unfold WriteImage. apply quiet_bind; [apply quiet_get_fs|]. intros root.
  destruct (fs_write p (Volume img) root);
    first [apply quiet_set_fs|apply quiet_raise].
Qed.

Lemma quiet_mkdir p : quiet (mkdir_parents_exist_ok p).
Proof.
  unfold mkdir_parents_exist_ok. apply quiet_bind; [apply quiet_get_fs|].
  intros root. destruct (fs_mkdir_p p root);
    first [apply quiet_set_fs|apply quiet_raise].
Qed.

Lemma quiet_chmod p : quiet (chmod_rwx_all p).
Proof.
  unfold chmod_rwx_all. apply quiet_bind; [apply quiet_get_fs|].
  intros root. destruct (fs_lookup p root);
    first [apply quiet_ret|apply quiet_raise].
Qed.

Lemma quiet_for_each {A} (xs : list A) (body : A -> M unit) :
  (forall x, quiet (body x)) -> quiet (for_each xs body).
Proof.
  intros Hb. induction xs as [|x xs IH]; simpl.
  - apply quiet_ret.
  - apply quiet_bind; [apply Hb|intros _; exact IH].
Qed.

Lemma quiet_prepare_workspace input_dir output_path :
  quiet (prepare_workspace input_dir output_path).
Proof.
  unfold prepare_workspace.
  repeat (apply quiet_bind; [first [apply quiet_mkdir|apply quiet_chmod]|
                             intros _]).
  apply quiet_chmod.
Qed.

Lemma quiet_stage_inputs t2w_path adc_path hbv_path input_dir :
  quiet (stage_inputs t2w_path adc_path hbv_path input_dir).
Proof.
  unfold stage_inputs. apply quiet_bind; [|intros _; apply quiet_ret].
  apply quiet_for_each. intros [modality src_path].
  apply quiet_bind; [apply quiet_ReadImage|]. intros img.
  apply quiet_bind; [apply quiet_getitem|]. intros dst.
  apply quiet_WriteImage.
Qed.

Lemma quiet_glob dir pattern : quiet (glob dir pattern).
Proof.
  unfold glob. apply quiet_bind; [apply quiet_get_fs|].
  intros root. apply quiet_ret.
Qed.

Lemma quiet_find_prediction output_path : quiet (find_prediction output_path).
Proof.
  unfold find_prediction. apply quiet_bind; [apply quiet_glob|]. intros mha.
  apply quiet_bind; [apply quiet_glob|]. intros nii.
  destruct (mha ++ nii)%list; [apply quiet_raise|apply quiet_ret].
Qed.

Lemma quiet_compute_statistics (env : Env) a :
  quiet (compute_statistics env a).
Proof.
  unfold compute_statistics. apply quiet_bind; [|intros mx; apply quiet_ret].
  destruct a; [apply quiet_raise|apply quiet_ret].
Qed.

Lemma path_parent_div (p : path) (name : string) :
  path_parent (path_div p name) = p.
Proof. unfold path_parent, path_div. apply removelast_last. Qed.

(** X5: the container step in closed form.  If [docker] cannot be
    started, the error of the operating system is wrapped as
    "Error running Docker: <str(e)>"; if the container runs past 300
    seconds it is killed and the timed-out error is raised; if it exits in
    time, the step returns for status 0, leaving the file system as the
    container left it, and otherwise raises the doubly wrapped
    failure. *)
Theorem run_container_cases
  (env : Env) (input_dir output_path : path) (w : World) :
  let cmd := docker_run_cmd env input_dir output_path in
  let spawned := (events w ++ [Spawn cmd (Some 300%Q)])%list in
  run_container env input_dir output_path w
  = match os_exec env cmd (fs w) with
    | (SpawnFails e, _) =>
        (Raise (Exn RuntimeError
                  (if isinstance e [TimeoutExpired]
                   then "Docker inference timed out after 5 minutes"
                   else "Error running Docker: " ++ exn_str e)),
         {| fs := fs w; events := spawned |})
    | (Runs duration rc out err, root') =>
        if Qle_bool duration 300
        then
          if rc =? 0
          then (Ok tt, {| fs := root'; events := spawned |})
          else (Raise (Exn RuntimeError
                  ("Error running Docker: Docker inference failed: " ++ err)),
                {| fs := root'; events := spawned |})
        else (Raise (Exn RuntimeError
                       "Docker inference timed out after 5 minutes"),
              {| fs := root'; events := (spawned ++ [Kill cmd])%list |})
    end.
Proof.
  cbv zeta. unfold run_container, try_except, bind.
  fold (docker_run_cmd env input_dir output_path).
  rewrite subprocess_run_eq. cbv zeta.
  destruct (os_exec env (docker_run_cmd env input_dir output_path) (fs w))
    as [[e|d rc out err] root'].
  - cbn [find_handler]. rewrite isinstance_Exception.
    destruct (isinstance e [TimeoutExpired]); reflexivity.
  - destruct (Qle_bool d 300); cbn; [|reflexivity].
    destruct (rc =? 0); reflexivity.
Qed.

(** The events of the container step alone. *)
Lemma run_container_events (env : Env) (input_dir output_path : path) w :
  let cmd := docker_run_cmd env input_dir output_path in
  let w' := snd (run_container env input_dir output_path w) in
  events w' = (events w ++ [Spawn cmd (Some 300%Q)])%list
  \/ events w' = (events w ++ [Spawn cmd (Some 300%Q); Kill cmd])%list.
Proof.
  cbv zeta. unfold run_container, try_except, bind.
  fold (docker_run_cmd env input_dir output_path).
  rewrite subprocess_run_eq. cbv zeta.
  destruct (os_exec env (docker_run_cmd env input_dir output_path) (fs w))
    as [[e|d rc out err] root'].
  - cbn [find_handler]. rewrite isinstance_Exception.
    destruct (isinstance e [TimeoutExpired]); left; reflexivity.
  - destruct (Qle_bool d 300); cbn.
    + destruct (rc =? 0); left; reflexivity.
    + right. now rewrite <- app_assoc.
Qed.

Lemma check_docker_available_events (env : Env) w :
  events (snd (check_docker_available env w))
  = (events w ++ [Spawn ["docker"; "--version"] None])%list.
Proof.
  unfold check_docker_available, try_except, bind.
  rewrite subprocess_run_eq. cbv zeta.
  destruct (os_exec env ["docker"; "--version"] (fs w))
    as [[e|d rc out err] root'].
  - cbn [find_handler].
    destruct (isinstance e [CalledProcessError; FileNotFoundError]);
      reflexivity.
  - destruct (rc =? 0); reflexivity.
Qed.

Lemma bind_events_Raise {A B} (m : M A) (k : A -> M B) w e w1 :
  m w = (Raise e, w1) -> events (snd (bind m k w)) = events w1.
Proof. intros H. now rewrite (bind_Raise _ _ _ _ _ H). Qed.

(** X6: every run of the pipeline spawns the version query first and
    after it at most the container, once, with the timeout of 300
    seconds; the container is killed only after a timeout.  The host
    directory mounted on [/input] is [output_dir] itself, the parent of
    [input], and [output_dir/output] is mounted on [/output]. *)
Theorem run_picai_inference_processes
  (env : Env) (t2w_path adc_path hbv_path output_dir : path) (w : World) :
  let cmd :=
    [ "docker"; "run"; "--rm";
      "-v"; path_str output_dir ++ ":/input";
      "-v"; path_str (path_div output_dir "output") ++ ":/output";
      DOCKER_IMAGE env ] in
  let probe := Spawn ["docker"; "--version"] None in
  let w' :=
    snd (run_picai_inference env t2w_path adc_path hbv_path output_dir w) in
  events w' = (events w ++ [probe])%list
  \/ events w' = (events w ++ [probe; Spawn cmd (Some 300%Q)])%list
  \/ events w'
     = (events w ++ [probe; Spawn cmd (Some 300%Q); Kill cmd])%list.
Proof.
  cbv zeta. unfold run_picai_inference.
  set (input_dir := path_div (path_div output_dir "input") "images").
  set (output_path := path_div output_dir "output").
  pose proof (check_docker_available_events env w) as Hprobe.
  destruct (check_docker_available env w) as [[available|e] w1] eqn:E1;
    cbn [snd] in Hprobe.
  2:{ left. now rewrite (bind_events_Raise _ _ _ _ _ E1). }
  rewrite (bind_Ok _ _ _ _ _ E1).
  destruct available; cbn [negb].
  2:{ left. unfold bind, raise. exact Hprobe. }
  rewrite (bind_Ok _ _ w1 tt w1) by reflexivity.
  pose proof (quiet_prepare_workspace input_dir output_path w1) as Q2.
  destruct (prepare_workspace input_dir output_path w1) as [[[]|e] w2] eqn:E2;
    cbn [snd] in Q2.
  2:{ left. rewrite (bind_events_Raise _ _ _ _ _ E2). congruence. }
  rewrite (bind_Ok _ _ _ _ _ E2).
  pose proof (quiet_stage_inputs t2w_path adc_path hbv_path input_dir w2) as Q3.
  destruct (stage_inputs t2w_path adc_path hbv_path input_dir w2)
    as [[input_files|e] w3] eqn:E3; cbn [snd] in Q3.
  2:{ left. rewrite (bind_events_Raise _ _ _ _ _ E3). congruence. }
  rewrite (bind_Ok _ _ _ _ _ E3).
  pose proof (run_container_events env input_dir output_path w3) as Q4.
  cbv zeta in Q4. unfold docker_run_cmd in Q4.
  subst input_dir. rewrite !path_parent_div in Q4.
  set (input_dir := path_div (path_div output_dir "input") "images") in *.
  rewrite Q3, Q2, Hprobe, <- !app_assoc in Q4. cbn [app] in Q4.
  destruct (run_container env input_dir output_path w3) as [[[]|e] w4] eqn:E4;
    cbn [snd] in Q4.
  2:{ right. rewrite (bind_events_Raise _ _ _ _ _ E4). exact Q4. }
  rewrite (bind_Ok _ _ _ _ _ E4). right.
  match goal with
  | |- context [snd (bind ?m ?k w4)] =>
      assert (Htail : quiet (bind m k))
  end.
  { apply quiet_bind; [apply quiet_find_prediction|]. intros p.
    apply quiet_bind; [apply quiet_ReadImage|]. intros a.
    apply quiet_bind; [apply quiet_compute_statistics|]. intros stats.
    repeat (apply quiet_bind; [apply quiet_getitem|intros ?]).
    apply quiet_ret. }
  rewrite (Htail w4). exact Q4.
Qed.

(** X7: when the version query exits with a non-zero status, or the
    [docker] executable is missing, the pipeline raises
    "Docker is not available. Please install Docker." right after the
    query: no directory is created, no file is written, and the
    container is not run. *)
Theorem run_picai_inference_docker_unavailable
  (env : Env) (t2w_path adc_path hbv_path output_dir : path) (w : World) :
  fst (check_docker_available env w) = Ok false ->
  run_picai_inference env t2w_path adc_path hbv_path output_dir w
  = (Raise (Exn RuntimeError
              "Docker is not available. Please install Docker."),
     snd (check_docker_available env w))
  /\ events (snd (check_docker_available env w))
     = (events w ++ [Spawn ["docker"; "--version"] None])%list
  /\ (forall e root',
        os_exec env ["docker"; "--version"] (fs w) = (SpawnFails e, root') ->
        fs (snd (check_docker_available env w)) = fs w).
Proof.
  intros Hprobe. split; [|split].
  - unfold run_picai_inference.
    destruct (check_docker_available env w) as [[available|e] w1] eqn:E1;
      simpl in Hprobe; [|discriminate].
    inversion Hprobe; subst available.
    rewrite (bind_Ok _ _ _ _ _ E1). reflexivity.
  - apply check_docker_available_events.
  - intros e root' Hos. unfold check_docker_available, try_except, bind.
    rewrite subprocess_run_eq, Hos. cbv zeta. cbn [find_handler].
    destruct (isinstance e [CalledProcessError; FileNotFoundError]);
      reflexivity.
Qed.

Lemma run_picai_inference_docker_unavailable_witness :
  Runs.run env_no_docker
  = (Raise (Exn RuntimeError
              "Docker is not available. Please install Docker."),
     {| fs := Runs.uploads;
        events := [Spawn ["docker"; "--version"] None] |}).
Proof.
  unfold Runs.run.
  rewrite (proj1 (run_picai_inference_docker_unavailable env_no_docker
                    ["data"; "t2w.mha"] ["data"; "adc.mha"]
                    ["data"; "hbv.nii.gz"] ["work"] Runs.start
                    eq_refl)).
  reflexivity.
Defined.

(** ** Which file is resolved *)

Lemma filter_first {A} (f : A -> bool) (pre post : list A) (x : A) :
  f x = true ->
  (forall y, In y pre -> f y = false) ->
  List.filter f (pre ++ x :: post) = x :: List.filter f post.
Proof.
  intros Hx Hpre. rewrite List.filter_app.
  rewrite (proj2 (filter_nil_iff f pre) Hpre). simpl. now rewrite Hx.
Qed.

Lemma not_ends_with_mha name :
  ~ ends_with name ".mha" -> fnmatch "*.mha" name = false.
Proof. intros H. apply not_true_is_false. now rewrite fnmatch_mha. Qed.

Lemma not_ends_with_nii_gz name :
  ~ ends_with name ".nii.gz" -> fnmatch "*.nii.gz" name = false.
Proof. intros H. apply not_true_is_false. now rewrite fnmatch_nii_gz. Qed.

(** X8: the resolved file is the first entry of [output_path], in scan
    order, whose name ends in [.mha]; when no entry ends in [.mha], it is
    the first entry whose name ends in [.nii.gz]. *)
Theorem find_prediction_first_in_scan_order
  (output_path : path) (w : World) (pre post : list string) (name : string) :
  fs_scandir output_path (fs w) = (pre ++ name :: post)%list ->
  (ends_with name ".mha"
   /\ (forall n, In n pre -> ~ ends_with n ".mha"))
  \/ (ends_with name ".nii.gz"
      /\ (forall n, In n pre -> ~ ends_with n ".nii.gz")
      /\ (forall n, In n (pre ++ name :: post) -> ~ ends_with n ".mha")) ->
  find_prediction output_path w = (Ok (path_div output_path name), w).
Proof.
  intros Hscan Hcase. rewrite find_prediction_eq. unfold prediction_files.
  rewrite Hscan.
  destruct Hcase as [[Hname Hpre]|(Hname & Hpre & Hnone)].
  - rewrite (filter_first (fnmatch "*.mha") pre post name).
    + reflexivity.
    + now apply fnmatch_mha.
    + intros n Hn. apply not_ends_with_mha. now apply Hpre.
  - rewrite (proj2 (filter_nil_iff (fnmatch "*.mha") (pre ++ name :: post))).
    + rewrite (filter_first (fnmatch "*.nii.gz") pre post name).
      * reflexivity.
      * now apply fnmatch_nii_gz.
      * intros n Hn. apply not_ends_with_nii_gz. now apply Hpre.
    + intros n Hn. apply not_ends_with_mha. now apply Hnone.
Qed.

Lemma find_prediction_first_in_scan_order_witness :
  find_prediction ["out"] several_candidates
  = (Ok ["out"; "z.mha"], several_candidates).
Proof.
  apply (find_prediction_first_in_scan_order ["out"] several_candidates
           ["b.nii.gz"; "images"] ["a.mha"] "z.mha").
  - reflexivity.
  - left. split; [exists "z"; reflexivity|].
    intros n [<-|[<-|[]]] Hend; apply fnmatch_mha in Hend; discriminate.
Defined.

(** The steps of a successful run, one after the other. *)
Lemma run_picai_inference_Ok_inv
  (env : Env) (t2w_path adc_path hbv_path output_dir : path)
  (w w' : World) (result : gmap string pyval) :
  run_picai_inference env t2w_path adc_path hbv_path output_dir w
    = (Ok result, w') ->
  let input_dir := path_div (path_div output_dir "input") "images" in
  let output_path := path_div output_dir "output" in
  exists w1 w2 w3 input_files prediction_path pred_array stats,
    check_docker_available env w = (Ok true, w1)
    /\ prepare_workspace input_dir output_path w1 = (Ok tt, w2)
    /\ stage_inputs t2w_path adc_path hbv_path input_dir w2
       = (Ok input_files, w3)
    /\ run_container env input_dir output_path w3 = (Ok tt, w')
    /\ find_prediction output_path w' = (Ok prediction_path, w')
    /\ fs_lookup prediction_path (fs w') = Some (File (Volume pred_array))
    /\ compute_statistics env pred_array w' = (Ok stats, w')
    /\ result !! "prediction_path" = Some (PStr (path_str prediction_path))
    /\ result !! "statistics" = Some (PDict stats).
Proof.
  intros H. cbv zeta. unfold run_picai_inference in H.
  set (input_dir := path_div (path_div output_dir "input") "images") in *.
  set (output_path := path_div output_dir "output") in *.
  apply bind_Ok_inv in H as (available & w1 & Eprobe & H).
  apply bind_Ok_inv in H as ([] & w1' & Eif & H).
  destruct available; [|discriminate].
  apply ret_Ok_inv in Eif as [_ ->].
  apply bind_Ok_inv in H as ([] & w2 & Eprep & H).
  apply bind_Ok_inv in H as (input_files & w3 & Estage & H).
  pose proof (stage_inputs_Ok_inv _ _ _ _ _ _ _ Estage) as Hm.
  apply bind_Ok_inv in H as ([] & w4 & Erun & H).
  apply bind_Ok_inv in H as (prediction_path & w5 & Efind & H).
  apply bind_Ok_inv in H as (pred_array & w6 & Eread & H).
  apply bind_Ok_inv in H as (stats & w7 & Estats & H).
  pose proof (find_prediction_Ok_inv _ _ _ _ Efind) as ->.
  apply ReadImage_Ok_inv in Eread as [-> Eread].
  pose proof (compute_statistics_Ok_inv _ _ _ _ _ Estats) as [-> _].
  subst input_files.
  apply bind_Ok_inv in H as (t2w & w8 & Et & H).
  apply bind_Ok_inv in H as (adc & w9 & Ea & H).
  apply bind_Ok_inv in H as (hbv & w10 & Eh & H).
  apply ret_Ok_inv in Et as [-> ->].
  apply ret_Ok_inv in Ea as [-> ->].
  apply ret_Ok_inv in Eh as [-> ->].
  apply ret_Ok_inv in H as [-> ->].
  eexists w1, w2, w3, _, prediction_path, pred_array, stats.
  repeat (split; [eassumption|]). split; reflexivity.
Qed.

Lemma find_prediction_Ok_name (output_path : path) (w w' : World) (p : path) :
  find_prediction output_path w = (Ok p, w') ->
  exists name,
    p = path_div output_path name
    /\ In name (fs_scandir output_path (fs w))
    /\ (ends_with name ".mha" \/ ends_with name ".nii.gz").
Proof.
  rewrite find_prediction_eq. unfold prediction_files.
  set (names := fs_scandir output_path (fs w)).
  destruct (map _ _ ++ map _ _)%list as [|p0 l] eqn:E; intros H;
    inversion H; subst p0 w'.
  assert (Hin : In p (p :: l)) by now left.
  rewrite <- E in Hin. apply in_app_or in Hin as [Hin|Hin];
    apply in_map_iff in Hin as (name & <- & Hin);
    apply List.filter_In in Hin as [Hin Hm]; exists name.
  - apply fnmatch_mha in Hm. auto.
  - apply fnmatch_nii_gz in Hm. auto.
Qed.

(** X9: a run succeeds only if, after the container, [output] itself
    has an entry ending in [.mha] or [.nii.gz] that is a readable,
    non-empty volume: that entry is the reported [prediction_path], and
    the reported [total_voxels] is its number of voxels.  A result left
    only in a subdirectory of [output] never makes the run succeed. *)
Theorem run_picai_inference_success_needs_direct_output
  (env : Env) (t2w_path adc_path hbv_path output_dir : path)
  (w w' : World) (result : gmap string pyval) :
  run_picai_inference env t2w_path adc_path hbv_path output_dir w
    = (Ok result, w') ->
  let output_path := path_div output_dir "output" in
  exists (name : string) (v : list Q) (stats : gmap string pyval),
    In name (fs_scandir output_path (fs w'))
    /\ (ends_with name ".mha" \/ ends_with name ".nii.gz")
    /\ fs_lookup (path_div output_path name) (fs w') = Some (File (Volume v))
    /\ v <> []
    /\ result !! "prediction_path"
       = Some (PStr (path_str (path_div output_path name)))
    /\ result !! "statistics" = Some (PDict stats)
    /\ stats !! "total_voxels" = Some (PInt (Z.of_nat (length v))).
Proof.
  intros H. cbv zeta.
  apply run_picai_inference_Ok_inv in H
    as (w1 & w2 & w3 & m & p & v & stats & _ & _ & _ & _ & Efind & Eread
        & Estats & Hp & Hs).
  apply find_prediction_Ok_name in Efind as (name & -> & Hin & Hend).
  exists name, v, stats. repeat (split; [assumption|]).
  destruct v as [|x v]; [discriminate|].
  split; [discriminate|]. split; [assumption|]. split; [assumption|].
  rewrite compute_statistics_cons in Estats. inversion Estats. reflexivity.
Qed.

Lemma run_picai_inference_success_needs_direct_output_witness :
  exists (result : gmap string pyval) (w' : World),
    Runs.run (Runs.docker_env 42 0 "" ["work"; "output"; "prediction.mha"])
    = (Ok result, w')
    /\ exists (name : string) (v : list Q),
         In name (fs_scandir ["work"; "output"] (fs w'))
         /\ fs_lookup (path_div ["work"; "output"] name) (fs w')
            = Some (File (Volume v))
         /\ result !! "prediction_path"
            = Some (PStr (path_str (path_div ["work"; "output"] name))).
Proof.
  destruct (Runs.run
              (Runs.docker_env 42 0 "" ["work"; "output"; "prediction.mha"]))
    as [[result|e] w'] eqn:E.
  - exists result, w'. split; [reflexivity|].
    unfold Runs.run in E.
    destruct (run_picai_inference_success_needs_direct_output _ _ _ _ _ _ _ _ E)
      as (name & v & stats & Hin & _ & Hv & _ & Hp & _).
    exists name, v. auto.
  - exfalso. vm_compute in E. discriminate.
Defined.

(** ** More on the statistics *)

Section MoreStatisticsFacts.

Local Open Scope Q_scope.

Lemma count_above_zero_iff (t : Q) (a : list Q) :
  count_above t a = 0%nat <-> Forall (fun v => v <= t) a.
Proof.
  unfold count_above. induction a as [|x a IH]; simpl.
  - split; [constructor|reflexivity].
  - destruct (Qlt_le_dec t x) as [Hlt|Hle]; simpl.
    + split; [discriminate|]. intros H. inversion H; subst.
      exfalso. eapply Qlt_not_le; eassumption.
    + rewrite IH. split.
      * intros H. now constructor.
      * intros H. now inversion H.
Qed.

Lemma count_above_all_iff (t : Q) (a : list Q) :
  count_above t a = length a <-> Forall (fun v => t < v) a.
Proof.
  split; [|apply count_above_all].
  unfold count_above. induction a as [|x a IH]; simpl; [constructor|].
  pose proof (List.filter_length_le
                (fun v => if Qlt_le_dec t v then true else false) a) as Hle.
  destruct (Qlt_le_dec t x) as [Hlt|Hle']; simpl; intros H.
  - constructor; [assumption|]. apply IH. lia.
  - lia.
Qed.

Lemma count_above_Permutation (t : Q) (a b : list Q) :
  Permutation a b -> count_above t a = count_above t b.
Proof.
  unfold count_above.
  induction 1 as [|x a b _ IH|x y a|a b c _ IH1 _ IH2]; simpl.
  - reflexivity.
  - destruct (Qlt_le_dec t x); simpl; now rewrite IH.
  - destruct (Qlt_le_dec t x), (Qlt_le_dec t y); reflexivity.
  - congruence.
Qed.

(** The running maximum does not depend on the order of the voxels. *)
Lemma fold_left_Qmax_Permutation (x y : Q) (a b : list Q) :
  Permutation (x :: a) (y :: b) ->
  fold_left Qmax a x == fold_left Qmax b y.
Proof.
  intros HP.
  assert (Ha : Forall (fun v => v <= fold_left Qmax a x) (x :: a))
    by (constructor; [apply fold_left_Qmax_init|apply fold_left_Qmax_upper]).
  assert (Hb : Forall (fun v => v <= fold_left Qmax b y) (y :: b))
    by (constructor; [apply fold_left_Qmax_init|apply fold_left_Qmax_upper]).
  rewrite List.Forall_forall in Ha, Hb.
  apply Qle_antisym.
  - apply Hb. eapply Permutation_in; [exact HP|apply fold_left_Qmax_In].
  - apply Ha. eapply Permutation_in;
      [apply Permutation_sym; exact HP|apply fold_left_Qmax_In].
Qed.

End MoreStatisticsFacts.

(** X10: the threshold is strict.  On a non-empty array
    [positive_voxels] is 0 exactly when every voxel is at most 1/2, a
    voxel equal to 1/2 not being counted, and it equals [total_voxels]
    exactly when every voxel is above 1/2. *)
Theorem compute_statistics_threshold (env : Env) (a : list Q) (w : World) :
  a <> [] ->
  exists (stats : gmap string pyval) (positive : Z),
    compute_statistics env a w = (Ok stats, w)
    /\ stats !! "positive_voxels" = Some (PInt positive)
    /\ stats !! "total_voxels" = Some (PInt (Z.of_nat (length a)))
    /\ (positive = 0 <-> Forall (fun v => v <= 1 # 2)%Q a)
    /\ (positive = Z.of_nat (length a) <-> Forall (fun v => 1 # 2 < v)%Q a).
Proof.
  destruct a as [|x a]; [congruence|]. intros _.
  eexists _, _. split; [apply compute_statistics_cons|].
  split; [reflexivity|]. split; [reflexivity|].
  rewrite np_sum_bool_greater. split.
  - rewrite <- count_above_zero_iff. lia.
  - rewrite <- count_above_all_iff. lia.
Qed.

Lemma compute_statistics_threshold_witness :
  exists (stats : gmap string pyval),
    compute_statistics env_binary64 [1 # 2; 1 # 4; 0]%Q empty_world
    = (Ok stats, empty_world)
    /\ stats !! "positive_voxels" = Some (PInt 0).
Proof.
  destruct (compute_statistics_threshold env_binary64 [1 # 2; 1 # 4; 0]%Q
              empty_world)
    as (stats & positive & Hrun & Hp & _ & Hzero & _); [discriminate|].
  exists stats. split; [exact Hrun|].
  rewrite Hp. do 2 f_equal. apply Hzero.
  repeat constructor; discriminate.
Defined.

(** X11: maximum and counts do not depend on the order of the voxels:
    two non-empty arrays that are permutations of each other have equal
    [max_probability] and the same [positive_voxels] and
    [total_voxels].  Nothing of the kind is stated of
    [mean_probability], a floating-point sum. *)
Theorem compute_statistics_order_independent
  (env : Env) (a b : list Q) (w : World) :
  a <> [] ->
  Permutation a b ->
  exists (sa sb : gmap string pyval) (max_a max_b : Q),
    compute_statistics env a w = (Ok sa, w)
    /\ compute_statistics env b w = (Ok sb, w)
    /\ sa !! "max_probability" = Some (PFloat (Finite max_a))
    /\ sb !! "max_probability" = Some (PFloat (Finite max_b))
    /\ (max_a == max_b)%Q
    /\ sa !! "positive_voxels" = sb !! "positive_voxels"
    /\ sa !! "total_voxels" = sb !! "total_voxels".
Proof.
  intros Ha HP.
  destruct a as [|x a]; [congruence|].
  destruct b as [|y b]; [apply Permutation_sym, Permutation_nil in HP;
                         discriminate|].
  eexists _, _, _, _.
  split; [apply compute_statistics_cons|].
  split; [apply compute_statistics_cons|].
  do 2 (split; [reflexivity|]).
  split; [|split].
  - now apply fold_left_Qmax_Permutation.
  - change (Some (PInt (np_sum_bool (np_greater (x :: a) (1 # 2))))
            = Some (PInt (np_sum_bool (np_greater (y :: b) (1 # 2))))).
    now rewrite !np_sum_bool_greater, (count_above_Permutation _ _ _ HP).
  - change (Some (PInt (np_size (x :: a))) = Some (PInt (np_size (y :: b)))).
    unfold np_size. now rewrite (Permutation_length HP).
Qed.

Lemma compute_statistics_order_independent_witness :
  exists (sa sb : gmap string pyval),
    compute_statistics env_binary64 [1 # 10; 9 # 10; 6 # 10]%Q empty_world
    = (Ok sa, empty_world)
    /\ compute_statistics env_binary64 [9 # 10; 6 # 10; 1 # 10]%Q
         empty_world
       = (Ok sb, empty_world)
    /\ sa !! "positive_voxels" = sb !! "positive_voxels".
Proof.
  destruct (compute_statistics_order_independent env_binary64
              [1 # 10; 9 # 10; 6 # 10]%Q [9 # 10; 6 # 10; 1 # 10]%Q
              empty_world)
    as (sa & sb & ? & ? & Ha & Hb & _ & _ & _ & Hp & _).
  - discriminate.
  - apply Permutation_cons_app with (l1 := [9 # 10; 6 # 10]%Q) (l2 := []).
    apply Permutation_refl.
  - exists sa, sb. auto.
Defined.

(** ** Reading an image back *)

(** X13: an image that has been written is read back unchanged:
    after [sitk.WriteImage(img, path)] has returned,
    [load_mri_volume(path)] returns the voxels of [img] and changes
    nothing. *)
Theorem load_mri_volume_after_write (img : list Q) (p : path) (w w1 : World) :
  WriteImage img p w = (Ok tt, w1) ->
  load_mri_volume p w1 = (Ok img, w1).
Proof.
  unfold WriteImage, bind, get_fs, set_fs, raise.
  destruct (fs_write p (Volume img) (fs w)) as [root'|] eqn:Ew;
    intros H; inversion H; subst w1.
  apply fs_write_lookup_same in Ew.
  unfold load_mri_volume, ReadImage, bind, get_fs, ret. cbn [fs].
  now rewrite Ew.
Qed.

Lemma load_mri_volume_after_write_witness :
  exists w1 : World,
    WriteImage [1; 2]%Q ["work"; "scan.mha"] Runs.start = (Ok tt, w1)
    /\ load_mri_volume ["work"; "scan.mha"] w1 = (Ok [1; 2]%Q, w1).
Proof.
  eexists. split; [reflexivity|].
  apply (load_mri_volume_after_write [1; 2]%Q ["work"; "scan.mha"] Runs.start).
  reflexivity.
Defined.

(** ** The API handler *)

Lemma endswith_spec (s suffix : string) :
  endswith s suffix = true <-> ends_with s suffix.
Proof.
  induction s as [|c s IH]; cbn [endswith].
  - rewrite orb_false_r, String.eqb_eq. split.
    + intros <-. now exists "".
    + intros [pre H]. destruct pre; [exact H|discriminate].
  - rewrite orb_true_iff, IH, String.eqb_eq. split.
    + intros [<-|[pre ->]]; [now exists ""|now exists (String c pre)].
    + intros [[|d pre] H]; [now left|].
      right. exists pre. rewrite string_app_cons in H. congruence.
Qed.

(** The names that pass the check of the handler. *)
Lemma valid_filename_spec (name : string) :
  valid_filename name = true
  <-> ends_with name ".mha" \/ ends_with name ".nii.gz"
      \/ ends_with name ".nii".
Proof.
  unfold valid_filename, valid_extensions. cbn [existsb].
  rewrite orb_false_r, !orb_true_iff, !endswith_spec. tauto.
Qed.

Lemma api_bind_Returned_inv {A B} (m : API A) (k : A -> API B) w b w' :
  api_bind m k w = (Returned b, w') ->
  exists a w1, m w = (Returned a, w1) /\ k a w1 = (Returned b, w').
Proof.
  unfold api_bind. destruct (m w) as [[a|e] w1]; intros H.
  - eauto.
  - discriminate.
Qed.

Lemma api_bind_Returned {A B} (m : API A) (k : A -> API B) w a w1 :
  m w = (Returned a, w1) -> api_bind m k w = k a w1.
Proof. unfold api_bind. now intros ->. Qed.

Lemma api_bind_Raised {A B} (m : API A) (k : A -> API B) w e w1 :
  m w = (Raised e, w1) -> api_bind m k w = (Raised e, w1).
Proof. unfold api_bind. now intros ->. Qed.

(** X14: the handler never answers with status 400.  Whatever the
    uploads and the environment, a call of [predict] either returns a
    response with status 200 or raises [HTTPException] with status 500:
    the [HTTPException] with status 400 raised for a bad file name is
    caught by the handler's own [except Exception] and replaced. *)
Theorem predict_status_codes
  (env : Env) (mkdtemp : M path) (save_upload : path -> UploadFile -> M path)
  (str_HTTPException : Z -> string -> string)
  (t2w adc hbv : UploadFile) (w : World) :
  match fst (predict env mkdtemp save_upload str_HTTPException
               t2w adc hbv w) with
  | Returned response => status_code response = 200
  | Raised (HTTPException status _) => status = 500
  | Raised (PyExn _) => False
  end.
Proof.
  unfold predict, api_try_except_Exception.
  match goal with
  | |- context [match ?body w with _ => _ end] =>
      destruct (body w) as [[response|e] w'] eqn:E
  end; [|reflexivity].
  cbn [fst].
  repeat (apply api_bind_Returned_inv in E as (? & ? & _ & E)).
  unfold api_ret in E. inversion E. reflexivity.
Qed.

Lemma validate_extensions_first_invalid (t2w adc hbv u : UploadFile) w :
  find (fun u => negb (valid_filename (filename u))) [t2w; adc; hbv] = Some u ->
  validate_extensions t2w adc hbv w
  = (Raised (HTTPException 400
               ("Invalid file format for " ++ filename u
                ++ ". Use .mha or .nii.gz")), w).
Proof.
  unfold validate_extensions, valid_filename. cbn [find api_for_each].
  unfold api_bind, api_raise, api_ret.
  destruct (negb (existsb _ _)) eqn:E1; [intros H; inversion H; reflexivity|].
  destruct (negb (existsb (fun ext => endswith (filename adc) ext) _)) eqn:E2;
    [intros H; inversion H; reflexivity|].
  destruct (negb (existsb (fun ext => endswith (filename hbv) ext) _)) eqn:E3;
    [intros H; inversion H; reflexivity|discriminate].
Qed.

(** X15: when [mkdtemp] has returned and one of the three file names
    fails the extension check, [predict] raises [HTTPException] with
    status 500 whose detail is the text of the status-400 exception for
    the first such file; the temporary directory has been made by then,
    but no upload is stored and no process is spawned. *)
Theorem predict_invalid_extension
  (env : Env) (mkdtemp : M path) (save_upload : path -> UploadFile -> M path)
  (str_HTTPException : Z -> string -> string)
  (t2w adc hbv u : UploadFile) (w w1 : World) (temp_path : path) :
  mkdtemp w = (Ok temp_path, w1) ->
  find (fun u => negb (valid_filename (filename u))) [t2w; adc; hbv] = Some u ->
  predict env mkdtemp save_upload str_HTTPException t2w adc hbv w
  = (Raised
       (HTTPException 500
          (str_HTTPException 400
             ("Invalid file format for " ++ filename u
              ++ ". Use .mha or .nii.gz"))),
     w1).
Proof.
  intros Htmp Hfind. unfold predict, api_try_except_Exception.
  assert (Hlift : lift mkdtemp w = (Returned temp_path, w1))
    by (unfold lift; now rewrite Htmp).
  rewrite (api_bind_Returned _ _ _ _ _ Hlift).
  rewrite (api_bind_Raised _ _ _ _ _
             (validate_extensions_first_invalid _ _ _ _ w1 Hfind)).
  reflexivity.
Qed.

Lemma predict_invalid_extension_witness :
  predict (Runs.docker_env 42 0 "" []) mkdtemp_fixed save_plain_name
    (fun _ detail => "400: " ++ detail)
    upload_dicom upload_adc upload_hbv empty_world
  = (Raised
       (HTTPException 500
          "400: Invalid file format for t2w.dcm. Use .mha or .nii.gz"),
     {| fs := Dir [("tmp", Dir [("tmpk3v9", Dir [])])]; events := [] |}).
Proof.
  apply (predict_invalid_extension (Runs.docker_env 42 0 "" []) mkdtemp_fixed
           save_plain_name (fun _ detail => "400: " ++ detail)
           upload_dicom upload_adc upload_hbv upload_dicom
           empty_world _ ["tmp"; "tmpk3v9"]).
  - reflexivity.
  - reflexivity.
Defined.

(** ** The viewer: slice indices *)

Lemma index0_of_nat (v : App.volume) (k : nat) :
  App.index0 v (Z.of_nat k)
  = match nth_error v k with
    | Some s => inr s
    | None => inl (App.IndexError "index out of bounds for axis 0")
    end.
Proof.
  unfold App.index0, App.shape0.
  destruct (Z.ltb_spec (Z.of_nat k) 0) as [Hneg|_]; [lia|].
  destruct (Z.leb_spec 0 (Z.of_nat k)) as [_|Hneg]; [|lia].
  rewrite Nat2Z.id. cbn [andb].
  destruct (Z.ltb_spec (Z.of_nat k) (Z.of_nat (length v))) as [Hlt|Hge].
  - reflexivity.
  - assert (Hnone : nth_error v k = None) by (apply nth_error_None; lia).
    now rewrite Hnone.
Qed.

Lemma middle_index (v : App.volume) :
  App.shape0 v / 2 = Z.of_nat (length v / 2).
Proof. unfold App.shape0. now rewrite Nat2Z.inj_div. Qed.

Lemma middle_in_range (A : Type) (v : list A) :
  v <> [] -> (length v / 2 < length v)%nat.
Proof.
  intros Hv. destruct v as [|x v]; [congruence|].
  apply Nat.div_lt; simpl; lia.
Qed.

(** X19: without a slice index, [create_overlay_plot] takes the middle
    slice of the T2W volume and applies the same index to the prediction.
    It returns a figure exactly when the T2W volume has a non-empty
    middle slice and the prediction has more slices than that index; it
    raises [IndexError] exactly when the T2W volume is empty or the
    prediction has too few slices. *)
Theorem create_overlay_plot_default_slice
  (t2w_type pred_type : App.Arithmetic) (t2w prediction : App.volume) :
  ((exists fig,
       App.create_overlay_plot t2w_type pred_type t2w prediction None
       = inr fig)
   <-> (exists s, nth_error t2w (length t2w / 2) = Some s /\ s <> [])
       /\ (length t2w / 2 < length prediction)%nat)
  /\ ((exists msg,
         App.create_overlay_plot t2w_type pred_type t2w prediction None
         = inl (App.IndexError msg))
      <-> t2w = [] \/ (length prediction <= length t2w / 2)%nat).
Proof.
  unfold App.create_overlay_plot. rewrite middle_index, !index0_of_nat.
  set (k := (length t2w / 2)%nat).
  destruct (nth_error t2w k) as [s|] eqn:Et.
  - assert (Hne : t2w <> []) by (intros ->; destruct k; discriminate).
    destruct (nth_error prediction k) as [ps|] eqn:Ep.
    + assert (Hk : (k < length prediction)%nat)
        by (apply nth_error_Some; congruence).
      destruct s as [|x a]; cbn [App.amin App.amax].
      * split; split.
        -- intros [fig H]. discriminate.
        -- intros [(s & Hs & Hnil) _]. inversion Hs. congruence.
        -- intros [msg H]. discriminate.
        -- intros [H|H]; [contradiction|lia].
      * split; split.
        -- intros _. split; [|exact Hk]. eexists. split; [reflexivity|].
           discriminate.
        -- intros _. eexists. reflexivity.
        -- intros [msg H]. discriminate.
        -- intros [H|H]; [contradiction|lia].
    + assert (Hk : (length prediction <= k)%nat)
        by (now apply nth_error_None).
      split; split.
      * intros [fig H]. discriminate.
      * intros [_ H]. lia.
      * intros _. now right.
      * intros _. eexists. reflexivity.
  - assert (Hnil : t2w = []).
    { destruct t2w as [|x t]; [reflexivity|].
      apply nth_error_None in Et.
      pose proof (middle_in_range _ (x :: t)) as Hm.
      subst k. exfalso. apply (Nat.lt_irrefl (length (x :: t))).
      eapply Nat.le_lt_trans; [exact Et|]. apply Hm. discriminate. }
    split; split.
    + intros [fig H]. discriminate.
    + intros [(s & Hs & _) _]. discriminate.
    + intros _. now left.
    + intros _. eexists. reflexivity.
Qed.

Lemma index0_negative (v : App.volume) (k : nat) :
  (0 < k)%nat ->
  App.index0 v (- Z.of_nat k)
  = if (k <=? length v)%nat
    then match nth_error v (length v - k) with
         | Some s => inr s
         | None => inl (App.IndexError "index out of bounds for axis 0")
         end
    else inl (App.IndexError "index out of bounds for axis 0").
Proof.
  intros Hk. unfold App.index0, App.shape0.
  destruct (Z.ltb_spec (- Z.of_nat k) 0) as [_|Hge]; [|lia].
  destruct (Nat.leb_spec k (length v)) as [Hle|Hgt].
  - destruct (Z.leb_spec 0 (- Z.of_nat k + Z.of_nat (length v)));
      [|lia].
    destruct (Z.ltb_spec (- Z.of_nat k + Z.of_nat (length v))
                (Z.of_nat (length v))); [|lia].
    cbn [andb].
    replace (Z.to_nat (- Z.of_nat k + Z.of_nat (length v)))
      with (length v - k)%nat by lia.
    reflexivity.
  - destruct (Z.leb_spec 0 (- Z.of_nat k + Z.of_nat (length v)));
      [lia|reflexivity].
Qed.

(** X20: [create_slice_viewer] returns a figure for a slice index [i]
    counted from the start exactly when [i] is less than the number of
    slices, for an index [-i] counted from the end exactly when [i] is at
    most the number of slices, and without an index exactly when the
    volume has a slice; in every other case it raises [IndexError]. *)
Theorem create_slice_viewer_index_range (vol : App.volume) (title : string) :
  (forall i : nat,
      (exists fig,
          App.create_slice_viewer vol title (Some (Z.of_nat i)) = inr fig)
      <-> (i < length vol)%nat)
  /\ (forall i : nat,
        (0 < i)%nat ->
        ((exists fig,
             App.create_slice_viewer vol title (Some (- Z.of_nat i))
             = inr fig)
         <-> (i <= length vol)%nat))
  /\ ((exists fig, App.create_slice_viewer vol title None = inr fig)
      <-> vol <> [])
  /\ (forall slice_idx e,
        App.create_slice_viewer vol title slice_idx = inl e ->
        exists msg, e = App.IndexError msg).
Proof.
  unfold App.create_slice_viewer. split; [|split; [|split]].
  - intros i. rewrite index0_of_nat.
    destruct (nth_error vol i) as [s|] eqn:E.
    + split; [intros _|intros _; eexists; reflexivity].
      apply nth_error_Some. congruence.
    + apply nth_error_None in E. split; [intros [fig H]; discriminate|lia].
  - intros i Hi. rewrite index0_negative by assumption.
    destruct (Nat.leb_spec i (length vol)) as [Hle|Hgt].
    + destruct (nth_error vol (length vol - i)) as [s|] eqn:E.
      * split; [intros _; exact Hle|intros _; eexists; reflexivity].
      * apply nth_error_None in E. lia.
    + split; [intros [fig H]; discriminate|lia].
  - rewrite middle_index, index0_of_nat.
    destruct (nth_error vol (length vol / 2)) as [s|] eqn:E.
    + split; [|intros _; eexists; reflexivity].
      intros _ ->. destruct (0 / 2)%nat; discriminate.
    + apply nth_error_None in E. split; [intros [fig H]; discriminate|].
      intros Hne. pose proof (middle_in_range _ vol Hne). lia.
  - intros slice_idx e. unfold App.index0.
    destruct (_ && _); [destruct (nth_error vol _)|]; intros H;
      inversion H; eauto.
Qed.

(** The workspace made in the working directory of [Runs.start]. *)
Lemma prepare_workspace_creates_layout_witness :
  exists w' : World,
    prepare_workspace ["work"; "input"; "images"] ["work"; "output"]
      Runs.start = (Ok tt, w')
    /\ is_dir ["work"; "output"; "images"; "cspca-detection-map"] (fs w')
    /\ fs_lookup ["data"; "t2w.mha"] (fs w')
       = Some (File (Volume [1; 2; 3; 4]%Q)).
Proof.
  destruct (prepare_workspace ["work"; "input"; "images"] ["work"; "output"]
              Runs.start) as [[[]|e] w'] eqn:E.
  - exists w'. split; [reflexivity|].
    destruct (prepare_workspace_creates_layout _ _ _ _ E)
      as (_ & _ & _ & D4 & Hkeep & _).
    split; [exact D4|]. apply Hkeep. reflexivity.
  - exfalso. vm_compute in E. discriminate.
Defined.

Lemma prepare_workspace_idempotent_witness :
  exists w' : World,
    prepare_workspace ["work"; "input"; "images"] ["work"; "output"]
      Runs.start = (Ok tt, w')
    /\ prepare_workspace ["work"; "input"; "images"] ["work"; "output"] w'
       = (Ok tt, w').
Proof.
  destruct (prepare_workspace ["work"; "input"; "images"] ["work"; "output"]
              Runs.start) as [[[]|e] w'] eqn:E.
  - exists w'. split; [reflexivity|].
    exact (prepare_workspace_idempotent _ _ _ _ E).
  - exfalso. vm_compute in E. discriminate.
Defined.
